(** * scrollnscrape: the content-script scraping engine

    A shallow embedding of the [TwitterScraper] class of the content script
    (field extraction, thread reconstruction, the collection cycle with its
    date filter and deduplication, the stop condition, the date-range seek
    loop and the START/STOP message handling), followed by the properties
    proved about it.

    Conventions.
    - A JavaScript string is a [string]; one character stands for one code
      unit, so [String.length] is [.length] and [substring 0 50] is
      [.substring(0, 50)]. Code units above 255 have no character here;
      nothing below depends on the alphabet except the character classes
      of [extractTweetData].
    - An optional field ([x?: T]) is an [option]; [None] is [undefined].
    - [new Date(s)] is not part of the program: it is the section variable
      [parseDate], whose result [None] is the Invalid Date (time value NaN).
    - The DOM is not part of the program either: an [Element] records what
      the selectors used by the scraper return on one tweet node.
    - [console.log] calls are not modelled. *)

From Stdlib Require Import List String Ascii ZArith Bool Arith Lia.
From Stdlib Require Import DecimalString.
Import ListNotations.

Local Open Scope string_scope.
Local Open Scope list_scope.
Local Open Scope nat_scope.

(* ------------------------------------------------------------------ *)
(** ** JavaScript values used by the scraper *)

Module JS.

(** Truthiness of a string: non-empty. *)
Definition truthy (s : string) : bool := negb (s =? "")%string.

(** Truthiness of an optional string: defined and non-empty. *)
Definition truthy_opt (o : option string) : bool :=
  match o with Some s => truthy s | None => false end.

(** Truthiness of an optional number: defined and non-zero. *)
Definition truthy_num (o : option Z) : bool :=
  match o with Some n => negb (n =? 0)%Z | None => false end.

(** [a || ''] on an optional string. *)
Definition or_empty (o : option string) : string :=
  match o with Some s => if truthy s then s else "" | None => "" end.

(** [`${o}`] on an optional string: [undefined] prints as its name. *)
Definition template (o : option string) : string :=
  match o with Some s => s | None => "undefined" end.

(** [`${n}`] on an array length. *)
Definition of_nat (n : nat) : string :=
  NilEmpty.string_of_uint (Nat.to_uint n).

Definition code (c : ascii) : nat := nat_of_ascii c.

(** White space and line terminators removed by [String.prototype.trim]. *)
Definition isWhiteSpace (c : ascii) : bool :=
  let n := code c in
  ((9 <=? n) && (n <=? 13)) || (n =? 32) || (n =? 160).

(** [\d] *)
Definition isDigit (c : ascii) : bool :=
  let n := code c in (48 <=? n) && (n <=? 57).

(** [\w] *)
Definition isWord (c : ascii) : bool :=
  let n := code c in
  isDigit c || ((65 <=? n) && (n <=? 90)) || ((97 <=? n) && (n <=? 122))
  || (n =? 95).

Fixpoint trimStart (s : string) : string :=
  match s with
  | String c r => if isWhiteSpace c then trimStart r else s
  | EmptyString => EmptyString
  end.

Fixpoint trimEnd (s : string) : string :=
  match s with
  | String c r =>
      let r' := trimEnd r in
      if isWhiteSpace c && (r' =? "")%string then "" else String c r'
  | EmptyString => EmptyString
  end.

Definition trim (s : string) : string := trimEnd (trimStart s).

(** [s.includes(sub)] *)
Definition includes (s sub : string) : bool :=
  match String.index 0 sub s with Some _ => true | None => false end.

(** [s.startsWith(p)] *)
Definition startsWith (s p : string) : bool := String.prefix p s.

Fixpoint all (f : ascii -> bool) (s : string) : bool :=
  match s with
  | String c r => f c && all f r
  | EmptyString => true
  end.

(** One or more characters, all satisfying [f]: [/^f+$/]. *)
Definition some_all (f : ascii -> bool) (s : string) : bool :=
  truthy s && all f s.

(** The separator glyph U+00B7. *)
Definition middot : string := String (ascii_of_nat 183) EmptyString.

(** A [Date]: its time value in milliseconds, [None] for NaN. *)
Definition Date := option Z.

(** [a < b] and [a > b] on dates; a comparison with NaN is false. *)
Definition date_lt (a b : Date) : bool :=
  match a, b with Some x, Some y => (x <? y)%Z | _, _ => false end.
Definition date_gt (a b : Date) : bool := date_lt b a.
Definition date_le (a b : Date) : bool :=
  match a, b with Some x, Some y => (x <=? y)%Z | _, _ => false end.
Definition date_ge (a b : Date) : bool := date_le b a.

End JS.

(* ------------------------------------------------------------------ *)
(** ** Data model *)

(** The [dateRange] object of the configuration. *)
Record DateRange := mkDateRange { start : string; end_ : string }.

(** [interface ScrapingConfig]. [maxTweets] is an integer when defined
    ([parseInt] in the popup; its NaN reaches the content script as a
    falsy value, which is [None] here). *)
Record ScrapingConfig := mkConfig {
  maxTweets : option Z;
  dateRange : option DateRange;
  scrapeAll : bool
}.

(** [interface ScrapedTweet]. *)
Record ScrapedTweet := mkTweet {
  text : string;
  timestamp : option string;
  author : option string;
  isThread : option bool;
  threadTweets : option (list string);
  threadPosition : option nat;
  quotedTweetUrl : option string;
  mediaUrls : option (list string)
}.

(** What the selectors of [extractTweetData] and [isThreadContinuation]
    return on one [[data-testid="tweet"]] node. Text fields hold the
    [textContent] of the selected node; attribute fields hold [None] when
    [getAttribute] returns [null]. *)
Record Element := mkElement {
  q_tweetText : option string;
  (* [lang] descendants *)
  q_lang : list string;
  (* div[dir="auto"], div[dir="ltr"]: text, and whether the parent element
     exists ([Some]) and contains a button *)
  q_divs : list (string * option bool);
  (* the first <time>: absent, or its datetime attribute *)
  q_time : option (option string);
  (* User-Name span span, or else User-Name *)
  q_userName : option string;
  (* a[href*="/status/"][data-testid="tweet-text-show-more-link"] *)
  q_quotedLink : option (option string);
  q_photoLinks : list (option string);
  q_videoLinks : list (option string);
  (* img/video on the media host: src and poster attributes *)
  q_media : list (option string * option string);
  (* the thread connector line inside the node / in the previous cell *)
  q_threadConnector : bool;
  q_previousThreadConnector : bool
}.

(** The [[data-testid="tweet-text-show-more-link"]] nodes of the page. *)
Record ShowMore := mkShowMore {
  sm_node : nat;             (* which node of the document it is *)
  sm_isButton : bool;        (* tagName is button and it is an HTMLElement *)
  sm_inQuotedTweet : bool    (* closest [role=link] has tabindex 0 *)
}.

(** One rendering of the page, as a collection cycle reads it. *)
Record Page := mkPage {
  tweetElements : list Element;
  showMoreElements : list ShowMore
}.

(* ------------------------------------------------------------------ *)
(** ** Field extraction: [extractTweetData] *)

Definition langCandidate (content : string) : bool :=
  let text := JS.trim content in
  JS.truthy text && (10 <? String.length text)
  && negb (JS.includes text JS.middot) && negb (JS.startsWith text "@").

Definition divCandidate (d : string * option bool) : bool :=
  let text := JS.trim (fst d) in
  JS.truthy text && (20 <? String.length text)
  && negb (JS.includes text "Repost") && negb (JS.includes text "Like")
  && negb (JS.includes text "Reply")
  && match snd d with
     | Some hasButton => negb hasButton && negb (JS.some_all JS.isDigit text)
     | None => false
     end.

(** The three strategies, in order; the result is the [textContent] of the
    chosen node. *)
Definition tweetTextElement (e : Element) : option string :=
  let first := q_tweetText e in
  let second :=
    match first with
    | Some _ => first
    | None => find langCandidate (q_lang e)
    end in
  match second with
  | Some _ => second
  | None => option_map fst (find divCandidate (q_divs e))
  end.

(** [/^(\d+|·|@\w+|Show|Hide|More|Reply|Repost|Quote|Like|Share)$/] *)
Definition uiToken (s : string) : bool :=
  JS.some_all JS.isDigit s
  || (s =? JS.middot)%string
  || match s with
     | String "@"%char r => JS.some_all JS.isWord r
     | _ => false
     end
  || existsb (String.eqb s)
       ["Show"; "Hide"; "More"; "Reply"; "Repost"; "Quote"; "Like"; "Share"].

(** [href.startsWith('http') ? href : `https://x.com${href}`] *)
Definition absoluteUrl (href : string) : string :=
  if JS.startsWith href "http" then href
  else ("https://x.com" ++ href)%string.

Definition linkUrls (hrefs : list (option string)) : list string :=
  flat_map (fun h => if JS.truthy_opt h then [absoluteUrl (JS.or_empty h)]
                     else []) hrefs.

Definition mediaSource (m : option string * option string) : list string :=
  let src := if JS.truthy_opt (fst m) then fst m else snd m in
  match src with
  | Some s => if JS.truthy s && JS.includes s "pbs.twimg.com" then [s] else []
  | None => []
  end.

Definition extractTweetData (e : Element) : option ScrapedTweet :=
  match tweetTextElement e with
  | None => None
  | Some content =>
      let tweetText := JS.trim content in
      if (String.length tweetText <? 2) || uiToken tweetText then None
      else
        let timestamp :=
          JS.or_empty (match q_time e with Some a => a | None => None end) in
        let author :=
          match q_userName e with Some c => JS.trim c | None => "" end in
        let quotedTweetUrl :=
          match q_quotedLink e with
          | Some href => if JS.truthy_opt href
                         then absoluteUrl (JS.or_empty href) else ""
          | None => ""
          end in
        let mediaUrls :=
          linkUrls (q_photoLinks e) ++ linkUrls (q_videoLinks e)
          ++ flat_map mediaSource (q_media e) in
        Some {| text := tweetText;
                timestamp := Some timestamp;
                author := Some author;
                isThread := None;
                threadTweets := None;
                threadPosition := None;
                quotedTweetUrl :=
                  if JS.truthy quotedTweetUrl then Some quotedTweetUrl
                  else None;
                mediaUrls :=
                  if 0 <? List.length mediaUrls then Some mediaUrls
                  else None |}
  end.

(* ------------------------------------------------------------------ *)
(** ** Thread reconstruction: [processTweetsForThreads] *)

Definition isThreadContinuation
    (tweetElement : Element) (lastAuthor : string)
    (currentAuthor : option string) : bool :=
  (q_threadConnector tweetElement || q_previousThreadConnector tweetElement)
  && JS.truthy lastAuthor && JS.truthy_opt currentAuthor
  && match currentAuthor with
     | Some a => (lastAuthor =? a)%string
     | None => false
     end.

(** [array.map((x, index) => f index x)], counting from [i]. *)
Fixpoint mapi_from {A B : Type} (i : nat) (f : nat -> A -> B) (l : list A)
  : list B :=
  match l with
  | [] => []
  | x :: r => f i x :: mapi_from (S i) f r
  end.

(** The body of the [forEach] of [finalizeThread]: three assignments. *)
Definition markThread (threadTexts : list string) (index : nat)
    (tweet : ScrapedTweet) : ScrapedTweet :=
  {| text := text tweet;
     timestamp := timestamp tweet;
     author := author tweet;
     isThread := Some true;
     threadTweets := Some threadTexts;
     threadPosition := Some (index + 1);
     quotedTweetUrl := quotedTweetUrl tweet;
     mediaUrls := mediaUrls tweet |}.

(** [finalizeThread] updates the records of the thread in place; the
    records are those of the current scan only, so the update is returned
    as the new list. *)
Definition finalizeThread (threadTweets : list ScrapedTweet)
  : list ScrapedTweet :=
  let threadTexts := map text threadTweets in
  mapi_from 0 (markThread threadTexts) threadTweets.

(** The local variables of [processTweetsForThreads]. *)
Record ThreadScan := mkScan {
  processedTweets : list ScrapedTweet;
  currentThread : list ScrapedTweet;
  lastAuthor : string
}.

(** "Process previous thread if exists" and "Handle last thread". *)
Definition flushThread (processed current : list ScrapedTweet)
  : list ScrapedTweet :=
  if 1 <? List.length current then processed ++ finalizeThread current
  else if List.length current =? 1 then
    match nth_error current 0 with
    | Some t => processed ++ [t]
    | None => processed
    end
  else processed.

(** The callback of [tweetElements.forEach]. *)
Definition threadStep (st : ThreadScan) (tweetElement : Element)
  : ThreadScan :=
  match extractTweetData tweetElement with
  | None => st
  | Some tweetData =>
      if isThreadContinuation tweetElement (lastAuthor st) (author tweetData)
         && (0 <? List.length (currentThread st))
      then {| processedTweets := processedTweets st;
              currentThread := currentThread st ++ [tweetData];
              lastAuthor := lastAuthor st |}
      else {| processedTweets :=
                flushThread (processedTweets st) (currentThread st);
              currentThread := [tweetData];
              lastAuthor := JS.or_empty (author tweetData) |}
  end.

Definition processTweetsForThreads (tweetElements : list Element)
  : list ScrapedTweet :=
  let st := fold_left threadStep tweetElements (mkScan [] [] "") in
  flushThread (processedTweets st) (currentThread st).

(* ------------------------------------------------------------------ *)
(** ** The collection cycle: the [forEach] of [scrapeTweets] *)

Section Engine.

(** [new Date(s)]: the time value of the parsed string, [None] when the
    date is invalid. *)
Variable parseDate : string -> JS.Date.

(** "Check if we've already reached the target limit". *)
Definition limitReached (cfg : ScrapingConfig) (all : list ScrapedTweet)
  : bool :=
  match maxTweets cfg with
  | Some n => JS.truthy_num (Some n) && (n <=? Z.of_nat (List.length all))%Z
  | None => false
  end.

(** "Check date range filtering": true when the tweet is skipped. *)
Definition outsideDateRange (cfg : ScrapingConfig) (tw : ScrapedTweet)
  : bool :=
  match dateRange cfg with
  | Some range =>
      if JS.truthy_opt (timestamp tw) then
        let tweetDate := parseDate (JS.or_empty (timestamp tw)) in
        let startDate := parseDate (start range) in
        let endDate := parseDate (end_ range) in
        JS.date_lt tweetDate startDate || JS.date_gt tweetDate endDate
      else false
  | None => false
  end.

(** "Create unique identifier". *)
Definition uniqueId (tw : ScrapedTweet) : string :=
  (substring 0 50 (text tw) ++ "_" ++ JS.template (timestamp tw))%string.

(** The predicate of [this.allTweets.some]. *)
Definition sameTweet (processedTweet tweet : ScrapedTweet) : bool :=
  (uniqueId tweet =? uniqueId processedTweet)%string
  || (text tweet =? text processedTweet)%string.

(** "Double-check we haven't exceeded the limit before adding". *)
Definition belowLimit (cfg : ScrapingConfig) (all : list ScrapedTweet)
  : bool :=
  negb (JS.truthy_num (maxTweets cfg))
  || match maxTweets cfg with
     | Some n => (Z.of_nat (List.length all) <? n)%Z
     | None => false
     end.

(** The callback of [processedTweets.forEach], on [this.allTweets]. *)
Definition scrapeStep (cfg : ScrapingConfig) (all : list ScrapedTweet)
    (processedTweet : ScrapedTweet) : list ScrapedTweet :=
  if limitReached cfg all then all
  else if outsideDateRange cfg processedTweet then all
  else if negb (existsb (sameTweet processedTweet) all) then
    if belowLimit cfg all then all ++ [processedTweet] else all
  else all.

(** [this.allTweets] after the [forEach] over the processed tweets. *)
Definition collect (cfg : ScrapingConfig) (all : list ScrapedTweet)
    (tweetElements : list Element) : list ScrapedTweet :=
  fold_left (scrapeStep cfg) (processTweetsForThreads tweetElements) all.

(* ------------------------------------------------------------------ *)
(** ** The scraper object and its effects *)

(** Messages sent with [chrome.runtime.sendMessage]. *)
Inductive RuntimeMessage :=
| STATUS_UPDATE (message : string) (tweetCount : nat)
| SCRAPING_COMPLETE (tweets : list ScrapedTweet) (tweetCount : nat).

(** Answers given with [sendResponse]. *)
Inductive Response :=
| RespStatus (status : string)
| RespState (active : bool) (tweetCount : nat)
| RespTweets (tweets : list ScrapedTweet).

(** What the scraper does to the outside, in program order. *)
Inductive Effect :=
| SendMessage (m : RuntimeMessage)
| SendResponse (r : Response)
| ScrollToBottom             (* window.scrollTo(0, body.scrollHeight) *)
| Delay (ms : nat)           (* await of a setTimeout promise *)
| SetTimeout (ms : nat)      (* setTimeout(() => this.scrapeAndScroll()) *)
| ClearInterval (handle : nat)
| Click (button : ShowMore). (* button.click() *)

(** The fields of [class TwitterScraper]. *)
Record TwitterScraper := mkScraper {
  allTweets : list ScrapedTweet;
  scrollInterval : option nat;
  isActive : bool;
  config : ScrapingConfig
}.

(** The object as the constructor leaves it. *)
Definition newScraper : TwitterScraper :=
  {| allTweets := []; scrollInterval := None; isActive := false;
     config := {| maxTweets := None; dateRange := None;
                  scrapeAll := true |} |}.

(** A method: it reads and updates [this] and performs effects. *)
Definition M (A : Type) : Type :=
  TwitterScraper -> A * TwitterScraper * list Effect.

Definition ret {A} (a : A) : M A := fun s => (a, s, []).

Definition bind {A B} (m : M A) (k : A -> M B) : M B :=
  fun s =>
    let '(a, s1, out1) := m s in
    let '(b, s2, out2) := k a s1 in
    (b, s2, out1 ++ out2).

Definition get : M TwitterScraper := fun s => (s, s, []).
Definition put (s : TwitterScraper) : M unit := fun _ => (tt, s, []).
Definition emit (e : Effect) : M unit := fun s => (tt, s, [e]).

Definition result {A} (r : A * TwitterScraper * list Effect) : A :=
  fst (fst r).
Definition this {A} (r : A * TwitterScraper * list Effect)
  : TwitterScraper := snd (fst r).
Definition effects {A} (r : A * TwitterScraper * list Effect)
  : list Effect := snd r.

Notation "x <- m ;; k" := (bind m (fun x => k))
  (at level 61, m at next level, right associativity).
Notation "m ;; k" := (bind m (fun _ => k))
  (at level 61, right associativity).

Definition sendStatusUpdate (message : string) : M unit :=
  s <- get ;;
  emit (SendMessage (STATUS_UPDATE message (List.length (allTweets s)))).

Definition sendScrapingComplete : M unit :=
  s <- get ;;
  emit (SendMessage (SCRAPING_COMPLETE (allTweets s)
                       (List.length (allTweets s)))).

Definition scrollDown : M unit := emit ScrollToBottom.

Definition stopScraping : M unit :=
  s <- get ;;
  match scrollInterval s with
  | Some handle =>
      emit (ClearInterval handle) ;;
      put {| allTweets := allTweets s; scrollInterval := None;
             isActive := isActive s; config := config s |}
  | None => ret tt
  end ;;
  s <- get ;;
  put {| allTweets := allTweets s; scrollInterval := scrollInterval s;
         isActive := false; config := config s |} ;;
  sendStatusUpdate "Scraping completed" ;;
  sendScrapingComplete.

(** [expandTruncatedTweets]: click the "Show more" buttons of main tweets
    and, when there was one, wait for the content to expand. *)
Definition expandTruncatedTweets (showMore : list ShowMore) : M unit :=
  let mainTweetButtons :=
    filter (fun e => sm_isButton e && negb (sm_inQuotedTweet e)) showMore in
  if 0 <? List.length mainTweetButtons then
    fold_right (fun button k => emit (Click button) ;; k) (ret tt)
      mainTweetButtons ;;
    emit (Delay 500)
  else ret tt.

(** [scrapeTweets] after the expansion: the [forEach] and the status. *)
Definition collectTweets (tweetElements : list Element) : M unit :=
  s <- get ;;
  put {| allTweets := collect (config s) (allTweets s) tweetElements;
         scrollInterval := scrollInterval s; isActive := isActive s;
         config := config s |} ;;
  s <- get ;;
  match dateRange (config s) with
  | Some _ =>
      sendStatusUpdate
        ("Found " ++ JS.of_nat (List.length (allTweets s))
         ++ " tweets in date range, scrolling...")%string
  | None =>
      sendStatusUpdate
        ("Scraped " ++ JS.of_nat (List.length (allTweets s))
         ++ " tweets...")%string
  end.

(** The node list is taken before the expansion and read after it:
    [tweetElements page] describes the nodes as they are when read. *)
Definition scrapeTweets (page : Page) : M unit :=
  expandTruncatedTweets (showMoreElements page) ;;
  collectTweets (tweetElements page).

(* ---------------------------------------------------------------- *)
(** ** The stop condition *)

(** The dates of the first [count] tweet nodes that have a [<time>] with
    a non-empty [datetime]. *)
Definition getCurrentTweetDates (doc : list Element) (count : nat)
  : list JS.Date :=
  flat_map
    (fun element =>
       match q_time element with
       | Some datetime =>
           if JS.truthy_opt datetime
           then [parseDate (JS.or_empty datetime)] else []
       | None => []
       end)
    (firstn count doc).

Definition shouldStopScraping (s : TwitterScraper) (doc : list Element)
  : bool :=
  if limitReached (config s) (allTweets s) then true
  else if scrapeAll (config s) then false
  else
    match dateRange (config s) with
    | Some range =>
        let startDate := parseDate (start range) in
        let currentPageTweets := getCurrentTweetDates doc 5 in
        if (3 <=? List.length currentPageTweets)
           && forallb (fun date => JS.date_lt date startDate)
                currentPageTweets
        then true else false
    | None => false
    end.

(* ---------------------------------------------------------------- *)
(** ** The pagination controller *)

(** How an invocation of [scrapeAndScroll] ends. *)
Inductive CycleEnd :=
| CycleSkipped      (* the scraper was not active *)
| CycleStopped      (* the stop condition held: stopScraping *)
| CycleScheduled.   (* scrolled; the next invocation is on a timer *)

(** [scrapeAndScroll] after [await this.scrapeTweets()]; [doc] is the
    page as the stop condition reads it and [handle] is what
    [setTimeout] returns. *)
Definition afterScrape (doc : list Element) (handle : nat) : M CycleEnd :=
  s <- get ;;
  if shouldStopScraping s doc then
    stopScraping ;; ret CycleStopped
  else
    scrollDown ;;
    emit (SetTimeout 3000) ;;
    s <- get ;;
    put {| allTweets := allTweets s; scrollInterval := Some handle;
           isActive := isActive s; config := config s |} ;;
    ret CycleScheduled.

Definition scrapeAndScroll (page : Page) (doc : list Element)
    (handle : nat) : M CycleEnd :=
  s <- get ;;
  if negb (isActive s) then ret CycleSkipped
  else scrapeTweets page ;; afterScrape doc handle.

(** [scrapeAndScroll] from the point where it resumes after the delay of
    the expansion. *)
Definition resumeScrape (tweetElements doc : list Element) (handle : nat)
  : M CycleEnd :=
  collectTweets tweetElements ;; afterScrape doc handle.

Definition maxAttempts : nat := 50.

(** How one turn of the [while] loop of [scrollToDateRange] ends. *)
Inductive SeekStep :=
| SeekAgain         (* attempts++ and back to the loop condition *)
| SeekScrape        (* this.scrapeAndScroll() is called; return *)
| SeekGiveUp.       (* this.stopScraping(); return *)

(** The body of the loop, for the value [attempts] of the counter and the
    page [doc] it reads. *)
Definition seekBody (startDate endDate : JS.Date) (attempts : nat)
    (doc : list Element) : M SeekStep :=
  let currentTweets := getCurrentTweetDates doc 3 in
  if List.length currentTweets =? 0 then
    scrollDown ;; emit (Delay 2000) ;; ret SeekAgain
  else if existsb (fun date => JS.date_ge date startDate
                               && JS.date_le date endDate) currentTweets
  then
    sendStatusUpdate "Found tweets in range, scraping..." ;;
    ret SeekScrape
  else
    let allTweetsAfterRange :=
      forallb (fun date => JS.date_gt date endDate) currentTweets in
    let allTweetsBeforeRange :=
      forallb (fun date => JS.date_lt date startDate) currentTweets in
    if allTweetsAfterRange then
      scrollDown ;; emit (Delay 2000) ;; ret SeekAgain
    else if allTweetsBeforeRange then
      if 40 <? attempts then
        sendStatusUpdate "No tweets found in date range" ;;
        stopScraping ;; ret SeekGiveUp
      else scrollDown ;; emit (Delay 2000) ;; ret SeekAgain
    else ret SeekAgain.

(** How [scrollToDateRange] ends. *)
Inductive SeekEnd :=
| SeekNoRange       (* no date range in the configuration *)
| SeekCollecting    (* this.scrapeAndScroll() was called *)
| SeekStopped       (* gave up: this.stopScraping() was called *)
| SeekInactive.     (* the scraper was stopped while seeking *)

(** The [while] loop with [remaining = maxAttempts - attempts] turns
    left: every turn that does not return increments [attempts], so the
    condition [attempts < maxAttempts] is [remaining > 0]. [pages k] is
    the page read when the counter is [k]. No message is handled while
    the loop waits; a turn resumed in another state is [seekBody] on that
    state. *)
Fixpoint seekLoop (remaining : nat) (startDate endDate : JS.Date)
    (pages : nat -> list Element) : M SeekEnd :=
  match remaining with
  | 0 =>
      (* attempts >= maxAttempts *)
      sendStatusUpdate "Starting scraping from current position" ;;
      ret SeekCollecting
  | S remaining' =>
      s <- get ;;
      if isActive s then
        let attempts := maxAttempts - remaining in
        step <- seekBody startDate endDate attempts (pages attempts) ;;
        match step with
        | SeekAgain => seekLoop remaining' startDate endDate pages
        | SeekScrape => ret SeekCollecting
        | SeekGiveUp => ret SeekStopped
        end
      else ret SeekInactive
  end.

Definition scrollToDateRange (pages : nat -> list Element) : M SeekEnd :=
  s <- get ;;
  match dateRange (config s) with
  | None => ret SeekNoRange
  | Some range =>
      let startDate := parseDate (start range) in
      let endDate := parseDate (end_ range) in
      sendStatusUpdate "Finding tweets in date range..." ;;
      seekLoop maxAttempts startDate endDate pages
  end.

(* ---------------------------------------------------------------- *)
(** ** Commands *)

(** Which method [startScraping] calls last. *)
Inductive Launch :=
| LaunchNothing
| LaunchScrollToDateRange
| LaunchScrapeAndScroll.

Definition startScraping (cfg : ScrapingConfig) : M Launch :=
  s <- get ;;
  if isActive s then ret LaunchNothing
  else
    put {| allTweets := []; scrollInterval := scrollInterval s;
           isActive := true; config := cfg |} ;;
    sendStatusUpdate "Starting scraping..." ;;
    match dateRange cfg with
    | Some _ => ret LaunchScrollToDateRange
    | None => ret LaunchScrapeAndScroll
    end.

(** [message.action] with its payload. *)
Inductive Message :=
| START_SCRAPING (cfg : ScrapingConfig)
| STOP_SCRAPING
| GET_STATUS
| GET_TWEETS
| OtherAction.

(** The listener installed by [setupMessageListener]. *)
Definition onMessage (message : Message) : M Launch :=
  match message with
  | START_SCRAPING cfg =>
      l <- startScraping cfg ;;
      emit (SendResponse (RespStatus "started")) ;;
      ret l
  | STOP_SCRAPING =>
      stopScraping ;;
      emit (SendResponse (RespStatus "stopped")) ;;
      ret LaunchNothing
  | GET_STATUS =>
      s <- get ;;
      emit (SendResponse
              (RespState (isActive s) (List.length (allTweets s)))) ;;
      ret LaunchNothing
  | GET_TWEETS =>
      s <- get ;;
      emit (SendResponse (RespTweets (allTweets s))) ;;
      ret LaunchNothing
  | OtherAction => ret LaunchNothing
  end.

(* ---------------------------------------------------------------- *)
(** ** Runs *)

(** What can happen to the scraper object: a message is handled,
    [scrapeAndScroll] is invoked, [scrapeAndScroll] resumes after the
    expansion delay, or one turn of the seek loop runs. A run is any
    sequence of these; the methods called by [startScraping] and by the
    end of the seek loop appear in it as the events that follow. *)
Inductive Event :=
| Received (message : Message)
| Invoked (page : Page) (doc : list Element) (handle : nat)
| Resumed (tweetElements doc : list Element) (handle : nat)
| Sought (startDate endDate : JS.Date) (attempts : nat)
    (doc : list Element).

Definition handle (s : TwitterScraper) (ev : Event) : TwitterScraper :=
  match ev with
  | Received message => this (onMessage message s)
  | Invoked page doc h => this (scrapeAndScroll page doc h s)
  | Resumed els doc h => this (resumeScrape els doc h s)
  | Sought startDate endDate attempts doc =>
      if (attempts <? maxAttempts) && isActive s
      then this (seekBody startDate endDate attempts doc s)
      else s
  end.

Definition run (s : TwitterScraper) (evs : list Event) : TwitterScraper :=
  fold_left handle evs s.

(** The events of one run: everything but a START command. *)
Definition withinRun (ev : Event) : bool :=
  match ev with
  | Received (START_SCRAPING _) => false
  | _ => true
  end.

(* ---------------------------------------------------------------- *)
(** ** The configuration the popup sends *)

Inductive ScrapeMode := mode_all | mode_count | mode_date.

(** [const config = { scrapeAll: ..., maxTweets: ..., dateRange: ... }];
    [maxTweetsInput] is [parseInt(maxTweets)]. *)
Definition popupConfig (scrapeMode : ScrapeMode) (maxTweetsInput : option Z)
    (startDate endDate : string) : ScrapingConfig :=
  {| scrapeAll := match scrapeMode with mode_all => true | _ => false end;
     maxTweets := match scrapeMode with
                  | mode_count => maxTweetsInput
                  | _ => None
                  end;
     dateRange := match scrapeMode with
                  | mode_date => Some (mkDateRange startDate endDate)
                  | _ => None
                  end |}.

End Engine.

(* ------------------------------------------------------------------ *)
(** ** Notions used to state the properties *)

(** The extraction results of a node list, in order, without the nodes
    that [extractTweetData] rejects. *)
Definition extracted (tweetElements : list Element) : list ScrapedTweet :=
  flat_map (fun e => match extractTweetData e with
                     | Some t => [t]
                     | None => []
                     end) tweetElements.

(** The fields of a record that thread reconstruction does not own. *)
Definition sameContent (a b : ScrapedTweet) : Prop :=
  text a = text b /\ timestamp a = timestamp b /\ author a = author b
  /\ quotedTweetUrl a = quotedTweetUrl b /\ mediaUrls a = mediaUrls b.

Definition noThreadFields (t : ScrapedTweet) : Prop :=
  isThread t = None /\ threadTweets t = None /\ threadPosition t = None.

(** The pending group when it is closed: nothing when it is empty. *)
Definition closeGroup (current : list ScrapedTweet)
  : list (list ScrapedTweet) :=
  match current with [] => [] | _ :: _ => [current] end.

(** The successive values of [currentThread] at the moments the scan of
    [processTweetsForThreads] closes it, for a scan that starts with the
    pending group [current] and author [lastAuthor]. *)
Fixpoint groupsFrom (current : list ScrapedTweet) (lastAuthor : string)
    (tweetElements : list Element) : list (list ScrapedTweet) :=
  match tweetElements with
  | [] => closeGroup current
  | e :: rest =>
      match extractTweetData e with
      | None => groupsFrom current lastAuthor rest
      | Some t =>
          if isThreadContinuation e lastAuthor (author t)
             && (0 <? List.length current)
          then groupsFrom (current ++ [t]) lastAuthor rest
          else closeGroup current
               ++ groupsFrom [t] (JS.or_empty (author t)) rest
      end
  end.

Definition threadGroups (tweetElements : list Element)
  : list (list ScrapedTweet) :=
  groupsFrom [] "" tweetElements.

(** What the scan emits for one closed group. *)
Definition emitGroup (group : list ScrapedTweet) : list ScrapedTweet :=
  flushThread [] group.

(** The element's [datetime] when [getCurrentTweetDates] can read it. *)
Definition readableTimestamp (e : Element) : option string :=
  match q_time e with
  | Some (Some datetime) => if JS.truthy datetime then Some datetime else None
  | _ => None
  end.

Definition hasReadableTimestamp (e : Element) : bool :=
  match readableTimestamp e with Some _ => true | None => false end.

(** The readable timestamps of the first [count] nodes, in order. *)
Definition readableTimestamps (doc : list Element) (count : nat)
  : list string :=
  flat_map (fun e => match readableTimestamp e with
                     | Some ts => [ts]
                     | None => []
                     end) (firstn count doc).

(** The first 50 characters of the text, and the timestamp. *)
Definition samePrefixAndTimestamp (a b : ScrapedTweet) : Prop :=
  substring 0 50 (text a) = substring 0 50 (text b)
  /\ timestamp a = timestamp b.

(** [all'] holds every tweet of [all] and is at least as long. *)
Definition extends (all all' : list ScrapedTweet) : Prop :=
  incl all all' /\ List.length all <= List.length all'.

(** Two states of the object with the same tweets and configuration. *)
Definition sameData (s s' : TwitterScraper) : Prop :=
  allTweets s' = allTweets s /\ config s' = config s.

Section Notions.

Variable parseDate : string -> JS.Date.

(** I1: fingerprints are pairwise distinct, and so are raw texts. *)
Definition Unique (all : list ScrapedTweet) : Prop :=
  NoDup (map uniqueId all) /\ NoDup (map text all).

(** A record whose timestamp is present and parses lies in [lo, hi]. *)
Definition withinRange (lo hi : Z) (tw : ScrapedTweet) : Prop :=
  forall ts t,
    timestamp tw = Some ts -> ts <> "" -> parseDate ts = Some t ->
    (lo <= t <= hi)%Z.

(** The timestamp is absent, empty or does not parse. *)
Definition noUsableTimestamp (tw : ScrapedTweet) : Prop :=
  match timestamp tw with
  | Some ts => ts = "" \/ parseDate ts = None
  | None => True
  end.

(** A cycle replaces the tweets by what the [forEach] leaves. *)
Definition cycled (s s' : TwitterScraper) : Prop :=
  config s' = config s
  /\ exists els,
       allTweets s' = collect parseDate (config s) (allTweets s) els.

End Notions.

(* ------------------------------------------------------------------ *)
(** ** Sample pages and configurations *)

(** Time values of a few ISO dates, as [Date.parse] gives them. *)
Definition dateTable : list (string * Z) :=
  [ ("2024-01-01", 1704067200000%Z);
    ("2024-01-31", 1706659200000%Z);
    ("2023-12-25T18:00:00.000Z", 1703527200000%Z);
    ("2024-01-15T12:00:00.000Z", 1705320000000%Z);
    ("2024-03-10T08:30:00.000Z", 1710059400000%Z);
    ("2024-03-11T09:00:00.000Z", 1710147600000%Z);
    ("2024-03-12T10:00:00.000Z", 1710237600000%Z) ].

(** A date parser that knows the dates of the table and rejects the rest. *)
Definition sampleDate (s : string) : JS.Date :=
  option_map snd (find (fun e => (fst e =? s)%string) dateTable).

(** A tweet node with a text marker, an author, a time and possibly the
    thread connector. *)
Definition tweetNode (content userName datetime : string) (connector : bool)
  : Element :=
  {| q_tweetText := Some content; q_lang := []; q_divs := [];
     q_time := Some (Some datetime); q_userName := Some userName;
     q_quotedLink := None; q_photoLinks := []; q_videoLinks := [];
     q_media := []; q_threadConnector := connector;
     q_previousThreadConnector := false |}.

(** The record [extractTweetData] builds for such a node. *)
Definition plainTweet (content userName datetime : string) : ScrapedTweet :=
  {| text := content; timestamp := Some datetime; author := Some userName;
     isThread := None; threadTweets := None; threadPosition := None;
     quotedTweetUrl := None; mediaUrls := None |}.

(** Three tweets of March 2024 by three authors. *)
Definition marchPage : list Element :=
  [ tweetNode "spring is coming" "ann" "2024-03-12T10:00:00.000Z" false;
    tweetNode "release notes are out" "bob" "2024-03-11T09:00:00.000Z" false;
    tweetNode "coffee first" "cy" "2024-03-10T08:30:00.000Z" false ].

(** A thread of three by one author, then a tweet by another author. *)
Definition threadPage : list Element :=
  [ tweetNode "one of three" "ann" "2024-01-15T12:00:00.000Z" false;
    tweetNode "two of three" "ann" "2024-01-15T12:00:00.000Z" true;
    tweetNode "three of three" "ann" "2024-01-15T12:00:00.000Z" true;
    tweetNode "happy holidays" "bob" "2023-12-25T18:00:00.000Z" false ].

(** Two texts longer than 50 characters with the same first 50. *)
Definition sharedPrefix : string :=
  "The quick brown fox jumps over the lazy dog near t".
Definition longTextA : string := (sharedPrefix ++ " bank, part one")%string.
Definition longTextB : string := (sharedPrefix ++ " bank, part two")%string.

(** Two nodes with these texts and one timestamp, by different authors. *)
Definition samePrefixPage : list Element :=
  [ tweetNode longTextA "ann" "2024-01-15T12:00:00.000Z" false;
    tweetNode longTextB "bob" "2024-01-15T12:00:00.000Z" false ].

Definition januaryConfig : ScrapingConfig :=
  popupConfig mode_date None "2024-01-01" "2024-01-31".

Definition countConfig (n : Z) : ScrapingConfig :=
  popupConfig mode_count (Some n) "" "".

(** An object in the middle of a run with the given configuration. *)
Definition activeScraper (cfg : ScrapingConfig) (all : list ScrapedTweet)
  : TwitterScraper :=
  {| allTweets := all; scrollInterval := None; isActive := true;
     config := cfg |}.

(* ------------------------------------------------------------------ *)
(** ** The rest of the content script *)

(** [getLatestTweets(count)]: the records of the first [count] nodes. *)
Definition getLatestTweets (doc : list Element) (count : nat)
  : list ScrapedTweet :=
  flat_map (fun element => match extractTweetData element with
                           | Some tweetData => [tweetData]
                           | None => []
                           end) (firstn count doc).

Section Reactions.

Variable parseDate : string -> JS.Date.

(** An event as the method it runs, with its effects; [handle] is the
    object this leaves. *)
Definition react (ev : Event) : M unit :=
  match ev with
  | Received message => bind (onMessage message) (fun _ => ret tt)
  | Invoked page doc h =>
      bind (scrapeAndScroll parseDate page doc h) (fun _ => ret tt)
  | Resumed els doc h =>
      bind (resumeScrape parseDate els doc h) (fun _ => ret tt)
  | Sought startDate endDate attempts doc =>
      bind get (fun s =>
        if (attempts <? maxAttempts) && isActive s
        then bind (seekBody parseDate startDate endDate attempts doc)
               (fun _ => ret tt)
        else ret tt)
  end.

End Reactions.

(** A record as thread reconstruction can leave it: without thread fields,
    or marked as a thread with at least two texts, a position within them,
    and its own text at that position. *)
Definition threadRecord (x : ScrapedTweet) : Prop :=
  noThreadFields x
  \/ (isThread x = Some true
      /\ exists texts k,
           threadTweets x = Some texts /\ threadPosition x = Some k
           /\ 2 <= List.length texts /\ 1 <= k <= List.length texts
           /\ nth_error texts (k - 1) = Some (text x)).

(** [l] is [l'] with some elements left out. *)
Inductive Subsequence {A : Type} : list A -> list A -> Prop :=
| sub_nil : Subsequence [] []
| sub_skip x l l' : Subsequence l l' -> Subsequence l (x :: l')
| sub_take x l l' : Subsequence l l' -> Subsequence (x :: l) (x :: l').

(** The message reports the tweets [all]: its count is their number, and
    a completion message carries them. *)
Definition reportsTweets (all : list ScrapedTweet) (m : RuntimeMessage)
  : Prop :=
  match m with
  | STATUS_UPDATE _ n => n = List.length all
  | SCRAPING_COMPLETE tweets n => tweets = all /\ n = List.length all
  end.

Definition isComplete (m : RuntimeMessage) : bool :=
  match m with SCRAPING_COMPLETE _ _ => true | STATUS_UPDATE _ _ => false end.

(** The events that a stopped scraper ignores: timer firings, turns of
    the seek loop and the read-only commands. *)
Definition ignoredWhenStopped (ev : Event) : bool :=
  match ev with
  | Invoked _ _ _ => true
  | Sought _ _ _ _ => true
  | Received GET_STATUS => true
  | Received GET_TWEETS => true
  | Received OtherAction => true
  | _ => false
  end.

(** A sample of the seek loop that is neither empty, nor has a date in the
    range, nor lies entirely after the range, nor entirely before it. *)
Definition mixedSample (startDate endDate : JS.Date) (sample : list JS.Date)
  : bool :=
  negb (List.length sample =? 0)
  && negb (existsb (fun date => JS.date_ge date startDate
                                && JS.date_le date endDate) sample)
  && negb (forallb (fun date => JS.date_gt date endDate) sample)
  && negb (forallb (fun date => JS.date_lt date startDate) sample).

(** A sample that makes the seek loop scroll for newer content: empty, or
    without a date in the range and entirely after it. *)
Definition tooRecentSample (startDate endDate : JS.Date)
    (sample : list JS.Date) : bool :=
  (List.length sample =? 0)
  || (negb (existsb (fun date => JS.date_ge date startDate
                                 && JS.date_le date endDate) sample)
      && forallb (fun date => JS.date_gt date endDate) sample).

(** A pinned tweet of December 2023 above two tweets of March 2024. *)
Definition pinnedPage : list Element :=
  [ tweetNode "happy holidays" "bob" "2023-12-25T18:00:00.000Z" false;
    tweetNode "spring is coming" "ann" "2024-03-12T10:00:00.000Z" false;
    tweetNode "release notes are out" "bob" "2024-03-11T09:00:00.000Z"
      false ].

(** The messages among the effects, in order. *)
Definition sentMessages (out : list Effect) : list RuntimeMessage :=
  flat_map (fun e => match e with SendMessage m => [m] | _ => [] end) out.

(** The [tweetCount] field of a message. *)
Definition messageCount (m : RuntimeMessage) : nat :=
  match m with
  | STATUS_UPDATE _ n => n
  | SCRAPING_COMPLETE _ n => n
  end.

(** The number of [window.scrollTo] calls among the effects. *)
Definition scrollCount (out : list Effect) : nat :=
  List.length
    (filter (fun e => match e with ScrollToBottom => true | _ => false end)
       out).

(** The nodes clicked by the [button.click()] calls among the effects,
    in order. *)
Definition clicked (out : list Effect) : list ShowMore :=
  flat_map (fun e => match e with Click button => [button] | _ => [] end)
    out.

(** A Show-more button of a main tweet, as [expandTruncatedTweets] tests
    it: a button element that is not inside a quoted tweet. *)
Definition mainTweetButton (e : ShowMore) : bool :=
  sm_isButton e && negb (sm_inQuotedTweet e).

(** Three Show-more nodes: the button of a main tweet, the button of a
    quoted tweet and a link. *)
Definition showMoreNodes : list ShowMore :=
  [ {| sm_node := 0; sm_isButton := true; sm_inQuotedTweet := true |};
    {| sm_node := 1; sm_isButton := true; sm_inQuotedTweet := false |};
    {| sm_node := 2; sm_isButton := false; sm_inQuotedTweet := false |} ].

(* ------------------------------------------------------------------ *)
(** ** The popup *)

Module Popup.

(** The state variables of [IndexPopup]. *)
Record State := mkState {
  scrapeMode : ScrapeMode;
  maxTweets : string;
  startDate : string;
  endDate : string;
  isActive : bool;
  status : string;
  tweetCount : nat;
  scrapedTweets : list ScrapedTweet;
  isOnTwitter : bool
}.

(** The initial values given to [useState]. *)
Definition initial : State :=
  {| scrapeMode := mode_all; maxTweets := "100"; startDate := "";
     endDate := ""; isActive := false; status := "Ready to scrape";
     tweetCount := 0; scrapedTweets := []; isOnTwitter := false |}.

(** The listener of [setupMessageListener]. *)
Definition onRuntimeMessage (p : State) (message : RuntimeMessage) : State :=
  match message with
  | STATUS_UPDATE text count =>
      {| scrapeMode := scrapeMode p; maxTweets := maxTweets p;
         startDate := startDate p; endDate := endDate p;
         isActive := isActive p; status := text; tweetCount := count;
         scrapedTweets := scrapedTweets p; isOnTwitter := isOnTwitter p |}
  | SCRAPING_COMPLETE tweets count =>
      {| scrapeMode := scrapeMode p; maxTweets := maxTweets p;
         startDate := startDate p; endDate := endDate p;
         isActive := false; status := "Scraping completed!";
         tweetCount := count; scrapedTweets := tweets;
         isOnTwitter := isOnTwitter p |}
  end.

(** [startScraping] of the popup: the new state and the message handed to
    [sendMessageToActiveTab], if any. [parseInt] is the built-in, [None]
    for NaN. *)
Definition startScraping (parseInt : string -> option Z) (p : State)
  : State * option Message :=
  if negb (isOnTwitter p) then
    ({| scrapeMode := scrapeMode p; maxTweets := maxTweets p;
        startDate := startDate p; endDate := endDate p;
        isActive := isActive p;
        status := "Please navigate to a X.com profile page";
        tweetCount := tweetCount p; scrapedTweets := scrapedTweets p;
        isOnTwitter := isOnTwitter p |}, None)
  else
    let config :=
      popupConfig (scrapeMode p) (parseInt (maxTweets p))
        (startDate p) (endDate p) in
    ({| scrapeMode := scrapeMode p; maxTweets := maxTweets p;
        startDate := startDate p; endDate := endDate p;
        isActive := true; status := "Starting scraper...";
        tweetCount := 0; scrapedTweets := [];
        isOnTwitter := isOnTwitter p |}, Some (START_SCRAPING config)).

(** [stopScraping] of the popup. *)
Definition stopScraping (p : State) : State * option Message :=
  ({| scrapeMode := scrapeMode p; maxTweets := maxTweets p;
      startDate := startDate p; endDate := endDate p;
      isActive := false; status := "Scraping stopped";
      tweetCount := tweetCount p; scrapedTweets := scrapedTweets p;
      isOnTwitter := isOnTwitter p |}, Some STOP_SCRAPING).

(** The double quote character and the line feed. *)
Definition quoteChar : ascii := ascii_of_nat 34.
Definition quote : string := String quoteChar EmptyString.
Definition newline : string := String (ascii_of_nat 10) EmptyString.

(** [t.replace] with the global pattern of one double quote and the
    replacement of two: every quote is doubled. *)
Fixpoint escapeQuotes (t : string) : string :=
  match t with
  | EmptyString => EmptyString
  | String c r =>
      if (c =? quoteChar)%char
      then String quoteChar (String quoteChar (escapeQuotes r))
      else String c (escapeQuotes r)
  end.

(** A template literal between two quotes. *)
Definition quoted (content : string) : string :=
  (quote ++ content ++ quote)%string.

(** [a || d] on an optional string. *)
Definition orDefault (o : option string) (d : string) : string :=
  if JS.truthy_opt o then JS.or_empty o else d.

(** The array built for one tweet by the callback of [tweets.map]. *)
Definition csvRow (tweet : ScrapedTweet) : list string :=
  let thread := match isThread tweet with Some b => b | None => false end in
  [ quoted (escapeQuotes (text tweet));
    quoted (orDefault (author tweet) "Unknown");
    quoted (orDefault (timestamp tweet) "Unknown");
    quoted (if thread then "Yes" else "No");
    quoted (match threadPosition tweet with
            | Some n => if n =? 0 then "" else JS.of_nat n
            | None => ""
            end);
    quoted (match threadTweets tweet with
            | Some texts =>
                if thread
                then String.concat " | " (map escapeQuotes texts)
                else ""
            | None => ""
            end);
    quoted (orDefault (quotedTweetUrl tweet) "");
    quoted (match mediaUrls tweet with
            | Some urls => String.concat " | " urls
            | None => ""
            end) ].

Definition headers : list string :=
  [ "Tweet Text"; "Author"; "Timestamp"; "Is Thread"; "Thread Position";
    "Full Thread"; "Quoted Tweet URL"; "Media URLs" ].

Definition convertToCSV (tweets : list ScrapedTweet) : string :=
  String.concat newline
    (String.concat "," headers
     :: map (fun row => String.concat "," row) (map csvRow tweets)).

(** [downloadCSV]: the content of the downloaded file, or nothing. *)
Definition downloadCSV (p : State) : option string :=
  if List.length (scrapedTweets p) =? 0 then None
  else Some (convertToCSV (scrapedTweets p)).

(** The content of a field written with [escapeQuotes]: a pair of quotes
    stands for one quote, a quote alone is not accepted. *)
Fixpoint collapseQuotes (t : string) : option string :=
  match t with
  | EmptyString => Some EmptyString
  | String c r =>
      if (c =? quoteChar)%char then
        match r with
        | String c' r' =>
            if (c' =? quoteChar)%char
            then option_map (String quoteChar) (collapseQuotes r')
            else None
        | EmptyString => None
        end
      else option_map (String c) (collapseQuotes r)
  end.

End Popup.

(** The popup opened on the site, before anything was chosen. *)
Definition onSitePopup : Popup.State :=
  {| Popup.scrapeMode := mode_all; Popup.maxTweets := "100";
     Popup.startDate := ""; Popup.endDate := ""; Popup.isActive := false;
     Popup.status := "Ready to scrape"; Popup.tweetCount := 0;
     Popup.scrapedTweets := []; Popup.isOnTwitter := true |}.

(* ------------------------------------------------------------------ *)
(** ** Thread reconstruction: auxiliary facts *)

Lemma mapi_from_length {A B} (f : nat -> A -> B) l i :
  List.length (mapi_from i f l) = List.length l.
Proof.
  revert i; induction l as [|x r IH]; intros i; simpl; [reflexivity|].
  now rewrite IH.
Qed.

Lemma markThread_content texts i t : sameContent t (markThread texts i t).
Proof. unfold sameContent; simpl; repeat split. Qed.

Lemma finalize_content texts l i :
  Forall2 sameContent l (mapi_from i (markThread texts) l).
Proof.
  revert i; induction l as [|x r IH]; intros i; simpl; constructor.
  - apply markThread_content.
  - apply IH.
Qed.

Lemma finalize_marks texts l i :
  Forall (fun x => isThread x = Some true /\ threadTweets x = Some texts)
    (mapi_from i (markThread texts) l).
Proof.
  revert i; induction l as [|x r IH]; intros i; simpl; constructor.
  - split; reflexivity.
  - apply IH.
Qed.

Lemma finalize_positions texts l i :
  map threadPosition (mapi_from i (markThread texts) l)
  = map Some (seq (i + 1) (List.length l)).
Proof.
  revert i; induction l as [|x r IH]; intros i; simpl; [reflexivity|].
  f_equal. rewrite IH. now replace (S i + 1) with (S (i + 1)) by lia.
Qed.

Lemma flushThread_app processed current :
  flushThread processed current = processed ++ flushThread [] current.
Proof.
  unfold flushThread.
  destruct (1 <? List.length current); [reflexivity|].
  destruct (List.length current =? 1); [|now rewrite app_nil_r].
  destruct (nth_error current 0); [reflexivity|now rewrite app_nil_r].
Qed.

Lemma emit_closeGroup current :
  flat_map emitGroup (closeGroup current) = flushThread [] current.
Proof.
  destruct current as [|a r]; [reflexivity|].
  simpl. apply app_nil_r.
Qed.

Lemma emitGroup_single t : emitGroup [t] = [t].
Proof. reflexivity. Qed.

Lemma emitGroup_thread g :
  2 <= List.length g -> emitGroup g = finalizeThread g.
Proof.
  intros H. unfold emitGroup, flushThread.
  destruct (Nat.ltb_spec 1 (List.length g)); [reflexivity|lia].
Qed.

(** The scan and the groups it closes. *)
Lemma scan_groups els : forall st,
  let st' := fold_left threadStep els st in
  flushThread (processedTweets st') (currentThread st')
  = processedTweets st
    ++ flat_map emitGroup (groupsFrom (currentThread st) (lastAuthor st) els).
Proof.
  induction els as [|e rest IH]; intros st; simpl.
  - rewrite emit_closeGroup. apply flushThread_app.
  - rewrite IH. unfold threadStep.
    destruct (extractTweetData e) as [t|]; [|reflexivity].
    destruct (isThreadContinuation e (lastAuthor st) (author t)
              && (0 <? List.length (currentThread st))); simpl.
    + reflexivity.
    + rewrite flat_map_app, emit_closeGroup, app_assoc.
      f_equal. apply flushThread_app.
Qed.

Lemma concat_closeGroup current : List.concat (closeGroup current) = current.
Proof. destruct current; simpl; [reflexivity|now rewrite app_nil_r]. Qed.

Lemma concat_groupsFrom els : forall current lastAuthor,
  List.concat (groupsFrom current lastAuthor els) = current ++ extracted els.
Proof.
  induction els as [|e rest IH]; intros current la; simpl.
  - rewrite concat_closeGroup. now rewrite app_nil_r.
  - destruct (extractTweetData e) as [t|]; [|apply IH].
    destruct (isThreadContinuation e la (author t)
              && (0 <? List.length current)).
    + rewrite IH. now rewrite <- app_assoc.
    + rewrite concat_app, concat_closeGroup, IH. reflexivity.
Qed.

Lemma groupsFrom_nonempty els : forall current lastAuthor g,
  In g (groupsFrom current lastAuthor els) -> g <> [].
Proof.
  induction els as [|e rest IH]; intros current la g; simpl.
  - destruct current; simpl; [tauto|].
    intros [<-|[]]; discriminate.
  - destruct (extractTweetData e) as [t|]; [|apply IH].
    destruct (isThreadContinuation e la (author t)
              && (0 <? List.length current)); [apply IH|].
    rewrite in_app_iff. intros [H|H]; [|now apply IH in H].
    destruct current; simpl in H; [tauto|].
    destruct H as [<-|[]]; discriminate.
Qed.

Lemma extract_noThreadFields e t :
  extractTweetData e = Some t -> noThreadFields t.
Proof.
  unfold extractTweetData.
  destruct (tweetTextElement e); [|discriminate].
  destruct (_ || _); [discriminate|].
  intros [= <-]. repeat split.
Qed.

Lemma extracted_noThreadFields els :
  Forall noThreadFields (extracted els).
Proof.
  induction els as [|e rest IH]; simpl; [constructor|].
  destruct (extractTweetData e) as [t|] eqn:E; simpl; [|exact IH].
  constructor; [now apply extract_noThreadFields in E|exact IH].
Qed.

Lemma group_members_extracted els g t :
  In g (threadGroups els) -> In t g -> In t (extracted els).
Proof.
  intros Hg Ht.
  rewrite <- (app_nil_l (extracted els)).
  unfold threadGroups in Hg.
  rewrite <- (concat_groupsFrom els [] "").
  apply in_concat. eauto.
Qed.

Lemma processTweets_groups els :
  processTweetsForThreads els = flat_map emitGroup (threadGroups els).
Proof.
  unfold processTweetsForThreads, threadGroups.
  now rewrite scan_groups.
Qed.

Lemma emitGroup_content g : Forall2 sameContent g (emitGroup g).
Proof.
  destruct g as [|a [|b r]].
  - constructor.
  - rewrite emitGroup_single. constructor; [|constructor].
    repeat split.
  - rewrite emitGroup_thread by (simpl; lia).
    apply finalize_content.
Qed.

Lemma sameContent_texts l l' :
  Forall2 sameContent l l' -> map text l' = map text l.
Proof.
  induction 1 as [|a b l l' Hab _ IH]; simpl; [reflexivity|].
  destruct Hab as [-> _]. now rewrite IH.
Qed.

Lemma Forall2_flat_map {A B} (R : A -> B -> Prop) (f : list A -> list B) gs :
  (forall g, In g gs -> Forall2 R g (f g)) ->
  Forall2 R (List.concat gs) (flat_map f gs).
Proof.
  induction gs as [|g r IH]; intros H; simpl; [constructor|].
  apply Forall2_app.
  - apply H. now left.
  - apply IH. intros g' Hg'. apply H. now right.
Qed.

(* ------------------------------------------------------------------ *)
(** ** The collection cycle: auxiliary facts *)

Section CycleFacts.

Variable parseDate : string -> JS.Date.

(** The callback either leaves the array alone or pushes the tweet, and
    it pushes only past the three guards. *)
Lemma scrapeStep_cases cfg all p :
  scrapeStep parseDate cfg all p = all
  \/ (scrapeStep parseDate cfg all p = all ++ [p]
      /\ limitReached cfg all = false
      /\ outsideDateRange parseDate cfg p = false
      /\ existsb (sameTweet p) all = false).
Proof.
  unfold scrapeStep.
  destruct (limitReached cfg all); [now left|].
  destruct (outsideDateRange parseDate cfg p); [now left|].
  destruct (existsb (sameTweet p) all); simpl; [now left|].
  destruct (belowLimit cfg all); [right; repeat split|now left].
Qed.

Lemma sameTweet_refl p : sameTweet p p = true.
Proof.
  unfold sameTweet. rewrite (String.eqb_refl (text p)).
  apply orb_true_r.
Qed.

Lemma sameTweet_prefix p q :
  samePrefixAndTimestamp q p -> sameTweet p q = true.
Proof.
  intros [Hp Ht]. unfold sameTweet, uniqueId.
  rewrite Hp, Ht, String.eqb_refl. reflexivity.
Qed.

(** A tweet that matches a retained one is not pushed. *)
Lemma scrapeStep_known cfg all p q :
  In q all -> sameTweet p q = true -> scrapeStep parseDate cfg all p = all.
Proof.
  intros Hin Hsame.
  destruct (scrapeStep_cases cfg all p) as [H|(_ & _ & _ & Hex)];
    [exact H|].
  assert (existsb (sameTweet p) all = true) as Ht
    by (apply existsb_exists; eauto).
  congruence.
Qed.

Lemma fresh_not_in p all :
  existsb (sameTweet p) all = false ->
  ~ In (uniqueId p) (map uniqueId all) /\ ~ In (text p) (map text all).
Proof.
  intros Hex.
  assert (forall q, In q all -> sameTweet p q = false) as Hall.
  { intros q Hq. destruct (sameTweet p q) eqn:E; [|reflexivity].
    rewrite <- Hex. symmetry. apply existsb_exists. eauto. }
  split; intros Hin; apply in_map_iff in Hin;
    destruct Hin as (q & Heq & Hq); specialize (Hall q Hq);
    unfold sameTweet in Hall; apply orb_false_elim in Hall;
    destruct Hall as [H1 H2].
  - rewrite Heq, String.eqb_refl in H1. discriminate.
  - rewrite Heq, String.eqb_refl in H2. discriminate.
Qed.

Lemma NoDup_snoc {A} (l : list A) x :
  NoDup l -> ~ In x l -> NoDup (l ++ [x]).
Proof.
  intros Hl Hx. apply NoDup_app; [exact Hl|repeat constructor; tauto|].
  intros a Ha [<-|[]]. contradiction.
Qed.

Lemma scrapeStep_unique cfg all p :
  Unique all -> Unique (scrapeStep parseDate cfg all p).
Proof.
  intros [Hid Htxt].
  destruct (scrapeStep_cases cfg all p) as [->|(-> & _ & _ & Hex)];
    [now split|].
  apply fresh_not_in in Hex. destruct Hex as [H1 H2].
  split; rewrite map_app; simpl; now apply NoDup_snoc.
Qed.

Lemma fold_invariant (P : list ScrapedTweet -> Prop) cfg :
  (forall all p, P all -> P (scrapeStep parseDate cfg all p)) ->
  forall ps all, P all -> P (fold_left (scrapeStep parseDate cfg) ps all).
Proof.
  intros Hstep ps. induction ps as [|p r IH]; intros all Hall; simpl.
  - exact Hall.
  - apply IH, Hstep, Hall.
Qed.

Lemma collect_unique cfg all els :
  Unique all -> Unique (collect parseDate cfg all els).
Proof.
  apply fold_invariant. intros; now apply scrapeStep_unique.
Qed.

(** *** The count cap *)

Lemma limitReached_spec cfg all n :
  maxTweets cfg = Some n -> (0 < n)%Z ->
  limitReached cfg all = (n <=? Z.of_nat (List.length all))%Z.
Proof.
  intros Hn Hpos. unfold limitReached. rewrite Hn. simpl.
  destruct (Z.eqb_spec n 0); [lia|reflexivity].
Qed.

Lemma scrapeStep_capped cfg all p n :
  maxTweets cfg = Some n -> (0 < n)%Z ->
  (Z.of_nat (List.length all) <= n)%Z ->
  (Z.of_nat (List.length (scrapeStep parseDate cfg all p)) <= n)%Z.
Proof.
  intros Hn Hpos Hlen.
  destruct (scrapeStep_cases cfg all p) as [->|(-> & Hlim & _)];
    [exact Hlen|].
  rewrite (limitReached_spec _ _ _ Hn Hpos) in Hlim.
  apply Z.leb_gt in Hlim. rewrite length_app. simpl. lia.
Qed.

Lemma scrapeStep_full cfg all p :
  limitReached cfg all = true -> scrapeStep parseDate cfg all p = all.
Proof.
  intros H. unfold scrapeStep. now rewrite H.
Qed.

Lemma fold_full cfg ps : forall all,
  limitReached cfg all = true -> fold_left (scrapeStep parseDate cfg) ps all = all.
Proof.
  induction ps as [|p r IH]; intros all H; simpl; [reflexivity|].
  rewrite scrapeStep_full by exact H. now apply IH.
Qed.

Lemma collect_capped cfg all els n :
  maxTweets cfg = Some n -> (0 < n)%Z ->
  (Z.of_nat (List.length all) <= n)%Z ->
  (Z.of_nat (List.length (collect parseDate cfg all els)) <= n)%Z.
Proof.
  intros Hn Hpos.
  apply (fold_invariant
           (fun l => (Z.of_nat (List.length l) <= n)%Z)).
  intros; now apply scrapeStep_capped.
Qed.

Lemma collect_full cfg all els n :
  maxTweets cfg = Some n -> (0 < n)%Z ->
  (n <= Z.of_nat (List.length all))%Z ->
  collect parseDate cfg all els = all.
Proof.
  intros Hn Hpos Hlen. apply fold_full.
  rewrite (limitReached_spec _ _ _ Hn Hpos). now apply Z.leb_le.
Qed.

(** *** The date filter *)

Lemma or_empty_some ts : ts <> "" -> JS.or_empty (Some ts) = ts.
Proof.
  intros H. unfold JS.or_empty, JS.truthy.
  destruct (String.eqb_spec ts ""); [contradiction|reflexivity].
Qed.

Lemma truthy_some ts : ts <> "" -> JS.truthy_opt (Some ts) = true.
Proof.
  intros H. unfold JS.truthy_opt, JS.truthy.
  now destruct (String.eqb_spec ts "").
Qed.

Lemma kept_withinRange cfg range lo hi p :
  dateRange cfg = Some range ->
  parseDate (start range) = Some lo -> parseDate (end_ range) = Some hi ->
  outsideDateRange parseDate cfg p = false -> withinRange parseDate lo hi p.
Proof.
  intros Hr Hlo Hhi Hout ts t Hts Hne Ht.
  unfold outsideDateRange in Hout.
  rewrite Hr, Hts, (truthy_some _ Hne), (or_empty_some _ Hne),
    Ht, Hlo, Hhi in Hout.
  unfold JS.date_gt, JS.date_lt in Hout.
  apply orb_false_elim in Hout. destruct Hout as [H1 H2].
  apply Z.ltb_ge in H1. apply Z.ltb_ge in H2. lia.
Qed.

Lemma scrapeStep_withinRange cfg range lo hi all p :
  dateRange cfg = Some range ->
  parseDate (start range) = Some lo -> parseDate (end_ range) = Some hi ->
  Forall (withinRange parseDate lo hi) all ->
  Forall (withinRange parseDate lo hi) (scrapeStep parseDate cfg all p).
Proof.
  intros Hr Hlo Hhi Hall.
  destruct (scrapeStep_cases cfg all p) as [->|(-> & _ & Hout & _)];
    [exact Hall|].
  apply Forall_app. split; [exact Hall|].
  constructor; [|constructor].
  eapply kept_withinRange; eauto.
Qed.

Lemma collect_withinRange cfg range lo hi all els :
  dateRange cfg = Some range ->
  parseDate (start range) = Some lo -> parseDate (end_ range) = Some hi ->
  Forall (withinRange parseDate lo hi) all ->
  Forall (withinRange parseDate lo hi) (collect parseDate cfg all els).
Proof.
  intros Hr Hlo Hhi. apply fold_invariant.
  intros; eapply scrapeStep_withinRange; eauto.
Qed.

Lemma unusable_not_outside cfg p :
  noUsableTimestamp parseDate p -> outsideDateRange parseDate cfg p = false.
Proof.
  unfold noUsableTimestamp, outsideDateRange.
  intros H. destruct (dateRange cfg) as [range|]; [|reflexivity].
  destruct (timestamp p) as [ts|]; [|reflexivity].
  destruct (JS.truthy_opt (Some ts)) eqn:E; [|reflexivity].
  destruct H as [->|H]; [discriminate|].
  assert (ts <> "") as Hne.
  { intros ->. discriminate. }
  rewrite (or_empty_some _ Hne), H.
  unfold JS.date_gt, JS.date_lt.
  now destruct (parseDate (end_ range)).
Qed.

End CycleFacts.

(* ------------------------------------------------------------------ *)
(** ** Re-observation: auxiliary facts *)

Section Reobservation.

Variable parseDate : string -> JS.Date.
Variable cfg : ScrapingConfig.

Lemma extends_refl all : extends all all.
Proof. split; [apply incl_refl|lia]. Qed.

Lemma extends_trans a b c : extends a b -> extends b c -> extends a c.
Proof.
  intros [H1 H2] [H3 H4]. split; [eapply incl_tran; eauto|lia].
Qed.

Lemma scrapeStep_extends all p : extends all (scrapeStep parseDate cfg all p).
Proof.
  destruct (scrapeStep_cases parseDate cfg all p) as [->|(-> & _)].
  - apply extends_refl.
  - split; [apply incl_appl, incl_refl|rewrite length_app; lia].
Qed.

Lemma fold_extends ps : forall all,
  extends all (fold_left (scrapeStep parseDate cfg) ps all).
Proof.
  induction ps as [|p r IH]; intros all; simpl.
  - apply extends_refl.
  - eapply extends_trans; [apply scrapeStep_extends|apply IH].
Qed.

Lemma limitReached_mono all all' :
  extends all all' ->
  limitReached cfg all = true -> limitReached cfg all' = true.
Proof.
  intros [_ Hlen]. unfold limitReached.
  destruct (maxTweets cfg) as [n|]; [|discriminate].
  rewrite !andb_true_iff, !Z.leb_le. intros [-> H]. split; [reflexivity|lia].
Qed.

Lemma belowLimit_mono all all' :
  extends all all' ->
  belowLimit cfg all = false -> belowLimit cfg all' = false.
Proof.
  intros [_ Hlen]. unfold belowLimit.
  destruct (maxTweets cfg) as [n|]; [|tauto].
  rewrite !orb_false_iff, !Z.ltb_ge. intros [-> H]. split; [reflexivity|lia].
Qed.

Lemma existsb_mono p all all' :
  extends all all' ->
  existsb (sameTweet p) all = true -> existsb (sameTweet p) all' = true.
Proof.
  intros [Hincl _]. rewrite !existsb_exists.
  intros (q & Hq & Hs). exists q. split; [now apply Hincl|exact Hs].
Qed.

(** A tweet that a pass did not push is not pushed on a larger array. *)
Lemma settled_mono all all' p :
  extends all all' ->
  scrapeStep parseDate cfg all p = all ->
  scrapeStep parseDate cfg all' p = all'.
Proof.
  intros Hext. unfold scrapeStep.
  destruct (limitReached cfg all) eqn:L.
  { now rewrite (limitReached_mono _ _ Hext L). }
  destruct (limitReached cfg all'); [reflexivity|].
  destruct (outsideDateRange parseDate cfg p); [reflexivity|].
  destruct (existsb (sameTweet p) all) eqn:E.
  { now rewrite (existsb_mono _ _ _ Hext E). }
  destruct (existsb (sameTweet p) all'); [reflexivity|]. simpl.
  destruct (belowLimit cfg all) eqn:B.
  - intros H. apply (f_equal (@List.length _)) in H.
    rewrite length_app in H. simpl in H. lia.
  - now rewrite (belowLimit_mono _ _ Hext B).
Qed.

Lemma scrapeStep_settles all p :
  scrapeStep parseDate cfg (scrapeStep parseDate cfg all p) p
  = scrapeStep parseDate cfg all p.
Proof.
  destruct (scrapeStep_cases parseDate cfg all p) as [H|(H & _)].
  - now rewrite !H.
  - rewrite H. apply (scrapeStep_known parseDate cfg _ p p).
    + apply in_or_app. right. now left.
    + apply sameTweet_refl.
Qed.

Lemma fold_settles ps : forall all p,
  In p ps ->
  let all' := fold_left (scrapeStep parseDate cfg) ps all in
  scrapeStep parseDate cfg all' p = all'.
Proof.
  induction ps as [|a r IH]; intros all p Hin; simpl in *; [tauto|].
  destruct Hin as [->|Hin]; [|now apply IH].
  eapply settled_mono; [apply fold_extends|apply scrapeStep_settles].
Qed.

Lemma fold_settled ps : forall all,
  (forall p, In p ps -> scrapeStep parseDate cfg all p = all) ->
  fold_left (scrapeStep parseDate cfg) ps all = all.
Proof.
  induction ps as [|a r IH]; intros all H; simpl; [reflexivity|].
  rewrite (H a) by now left.
  apply IH. intros p Hp. apply H. now right.
Qed.

Lemma collect_twice all els :
  collect parseDate cfg (collect parseDate cfg all els) els
  = collect parseDate cfg all els.
Proof.
  unfold collect. apply fold_settled.
  intros p Hp. now apply fold_settles.
Qed.

End Reobservation.

(* ------------------------------------------------------------------ *)
(** ** Methods: what they do to the object *)

Section MethodFacts.

Variable parseDate : string -> JS.Date.

Lemma this_bind {A B} (m : M A) (k : A -> M B) s :
  this (bind m k s) = this (k (result (m s)) (this (m s))).
Proof.
  unfold bind, this, result.
  destruct (m s) as [[a s1] o1]. simpl.
  now destruct (k a s1) as [[b s2] o2].
Qed.

Lemma result_bind {A B} (m : M A) (k : A -> M B) s :
  result (bind m k s) = result (k (result (m s)) (this (m s))).
Proof.
  unfold bind, this, result.
  destruct (m s) as [[a s1] o1]. simpl.
  now destruct (k a s1) as [[b s2] o2].
Qed.

Lemma effects_bind {A B} (m : M A) (k : A -> M B) s :
  effects (bind m k s)
  = effects (m s) ++ effects (k (result (m s)) (this (m s))).
Proof.
  unfold bind, this, result, effects.
  destruct (m s) as [[a s1] o1]. simpl.
  now destruct (k a s1) as [[b s2] o2].
Qed.

Lemma sendStatusUpdate_this message s :
  this (sendStatusUpdate message s) = s.
Proof. reflexivity. Qed.

Lemma sendScrapingComplete_this s : this (sendScrapingComplete s) = s.
Proof. reflexivity. Qed.

Ltac step_this :=
  repeat (rewrite ?this_bind, ?result_bind, ?sendStatusUpdate_this,
            ?sendScrapingComplete_this;
          cbn [this result get put emit ret scrollDown fst snd
               allTweets scrollInterval isActive config]).

Lemma sameData_refl s : sameData s s.
Proof. now split. Qed.

Lemma sameData_trans a b c : sameData a b -> sameData b c -> sameData a c.
Proof. intros [H1 H2] [H3 H4]. split; congruence. Qed.

Lemma clicks_this (l : list ShowMore) s :
  this (fold_right (fun button k => bind (emit (Click button)) (fun _ => k))
          (ret tt) l s)
  = s.
Proof.
  induction l as [|x r IH]; simpl; [reflexivity|].
  rewrite this_bind. exact IH.
Qed.

Lemma expand_this showMore s : this (expandTruncatedTweets showMore s) = s.
Proof.
  unfold expandTruncatedTweets.
  destruct (0 <? _); [|reflexivity].
  rewrite this_bind. simpl. apply clicks_this.
Qed.

Lemma collectTweets_this els s :
  this (collectTweets parseDate els s)
  = {| allTweets := collect parseDate (config s) (allTweets s) els;
       scrollInterval := scrollInterval s;
       isActive := isActive s;
       config := config s |}.
Proof.
  unfold collectTweets. step_this.
  now destruct (dateRange (config s)).
Qed.

Lemma scrapeTweets_this page s :
  this (scrapeTweets parseDate page s)
  = {| allTweets :=
         collect parseDate (config s) (allTweets s) (tweetElements page);
       scrollInterval := scrollInterval s;
       isActive := isActive s;
       config := config s |}.
Proof.
  unfold scrapeTweets. rewrite this_bind, expand_this.
  apply collectTweets_this.
Qed.

Lemma stopScraping_this s :
  this (stopScraping s)
  = {| allTweets := allTweets s; scrollInterval := None;
       isActive := false; config := config s |}.
Proof.
  unfold stopScraping. step_this.
  destruct (scrollInterval s) eqn:E; step_this; now rewrite ?E.
Qed.

Lemma stopScraping_sameData s : sameData s (this (stopScraping s)).
Proof. rewrite stopScraping_this. now split. Qed.

Lemma afterScrape_sameData doc h s :
  sameData s (this (afterScrape parseDate doc h s)).
Proof.
  unfold afterScrape. step_this.
  destruct (shouldStopScraping parseDate s doc); step_this.
  - apply stopScraping_sameData.
  - now split.
Qed.

Lemma seekBody_sameData startDate endDate attempts doc s :
  sameData s (this (seekBody parseDate startDate endDate attempts doc s)).
Proof.
  unfold seekBody.
  destruct (_ =? 0); [now split|].
  destruct (existsb _ _); [now split|].
  destruct (forallb _ _); [now split|].
  destruct (forallb _ _); [|now split].
  destruct (40 <? attempts); [|now split].
  step_this. apply stopScraping_sameData.
Qed.

Lemma resumeScrape_cycled els doc h s :
  cycled parseDate s (this (resumeScrape parseDate els doc h s)).
Proof.
  unfold resumeScrape. rewrite this_bind.
  destruct (afterScrape_sameData doc h
              (this (collectTweets parseDate els s))) as [H1 H2].
  rewrite collectTweets_this in *. simpl in *.
  split; [exact H2|]. exists els. exact H1.
Qed.

Lemma scrapeAndScroll_step page doc h s :
  let s' := this (scrapeAndScroll parseDate page doc h s) in
  s' = s \/ cycled parseDate s s'.
Proof.
  unfold scrapeAndScroll. rewrite this_bind.
  cbn [this result get fst snd].
  destruct (isActive s); cbn [negb]; [right|now left].
  rewrite this_bind.
  destruct (afterScrape_sameData doc h
              (this (scrapeTweets parseDate page s))) as [H1 H2].
  rewrite scrapeTweets_this in *. simpl in *.
  split; [exact H2|]. exists (tweetElements page). exact H1.
Qed.

Lemma startScraping_this cfg s :
  this (startScraping cfg s)
  = if isActive s then s
    else {| allTweets := []; scrollInterval := scrollInterval s;
            isActive := true; config := cfg |}.
Proof.
  unfold startScraping. step_this.
  destruct (isActive s); [reflexivity|]. step_this.
  now destruct (dateRange cfg).
Qed.

(** An event of a run keeps the data or is a cycle. *)
Lemma handle_withinRun ev s :
  withinRun ev = true ->
  sameData s (handle parseDate s ev) \/ cycled parseDate s (handle parseDate s ev).
Proof.
  destruct ev as [m|page doc h|els doc h|sd ed attempts doc]; simpl.
  - destruct m; try discriminate; intros _; left;
      unfold onMessage; step_this.
    + apply stopScraping_sameData.
    + now split.
    + now split.
    + now split.
  - intros _.
    destruct (scrapeAndScroll_step page doc h s) as [->|H];
      [left; apply sameData_refl|now right].
  - intros _. right. apply resumeScrape_cycled.
  - intros _. left.
    destruct (_ && _); [apply seekBody_sameData|apply sameData_refl].
Qed.

(** A START command does nothing or empties the array. *)
Lemma handle_start cfg s :
  let s' := handle parseDate s (Received (START_SCRAPING cfg)) in
  s' = s \/ allTweets s' = [].
Proof.
  simpl. unfold onMessage. step_this. rewrite startScraping_this.
  destruct (isActive s); [now left|now right].
Qed.

(** A property of the tweets that cycles keep holds along a run. *)
Lemma run_withinRun (P : list ScrapedTweet -> Prop) cfg :
  (forall all els, P all -> P (collect parseDate cfg all els)) ->
  forall evs s,
    forallb withinRun evs = true ->
    config s = cfg -> P (allTweets s) ->
    config (run parseDate s evs) = cfg /\ P (allTweets (run parseDate s evs)).
Proof.
  intros Hcycle evs.
  induction evs as [|ev r IH]; intros s Hevs Hcfg HP; simpl in *;
    [now split|].
  apply andb_true_iff in Hevs. destruct Hevs as [Hev Hr].
  destruct (handle_withinRun ev s Hev) as [[H1 H2]|[H1 [els H2]]];
    apply IH; try exact Hr; try congruence.
  rewrite H2, Hcfg. now apply Hcycle.
Qed.

(** A property of the tweets that cycles keep under every configuration
    and that holds of the empty array holds along every run. *)
Lemma run_always (P : list ScrapedTweet -> Prop) :
  P [] ->
  (forall cfg all els, P all -> P (collect parseDate cfg all els)) ->
  forall evs s, P (allTweets s) -> P (allTweets (run parseDate s evs)).
Proof.
  intros Hnil Hcycle evs.
  induction evs as [|ev r IH]; intros s HP; simpl; [exact HP|].
  apply IH.
  destruct (withinRun ev) eqn:Hev.
  - destruct (handle_withinRun ev s Hev) as [[H1 H2]|[H1 [els H2]]].
    + now rewrite H1.
    + rewrite H2. now apply Hcycle.
  - destruct ev as [[cfg| | | |]| | |]; try discriminate.
    destruct (handle_start cfg s) as [H|H]; rewrite H; assumption.
Qed.

End MethodFacts.

(* ------------------------------------------------------------------ *)
(** ** Properties of thread reconstruction *)

(** C9. Thread reconstruction preserves content and order: the output of
    [processTweetsForThreads] has exactly one record per node that
    [extractTweetData] accepts, in the order of the nodes, and each record
    carries the text, timestamp, author, quoted-tweet URL and media URLs
    that were extracted; only the thread fields may differ. *)
Theorem reconstruction_preserves_records :
  forall tweetElements : list Element,
    Forall2 sameContent (extracted tweetElements)
      (processTweetsForThreads tweetElements)
    /\ List.length (processTweetsForThreads tweetElements)
       = List.length (extracted tweetElements).
Proof.
  intros els.
  assert (Forall2 sameContent (extracted els) (processTweetsForThreads els))
    as H.
  { rewrite processTweets_groups.
    rewrite <- (app_nil_l (extracted els)).
    unfold threadGroups. rewrite <- (concat_groupsFrom els [] "").
    apply Forall2_flat_map. intros g _. apply emitGroup_content. }
  split; [exact H|].
  symmetry. eapply Forall2_length, H.
Qed.

(** C4. The output of the thread reconstructor is the concatenation, in
    order, of what it emits for each group it closes, and the groups split
    the extracted records in rendered order. An emitted record has
    [isThread = true] exactly when its group has at least two members; in
    that case every member carries the same [threadTweets], the texts of
    the members in order, and the positions are 1..k in order; a record
    emitted from a group of one carries no thread field. *)
Theorem thread_groups_consistent :
  forall tweetElements : list Element,
    let groups := threadGroups tweetElements in
    processTweetsForThreads tweetElements = flat_map emitGroup groups
    /\ List.concat groups = extracted tweetElements
    /\ forall g, In g groups ->
         g <> []
         /\ map text (emitGroup g) = map text g
         /\ (forall x, In x (emitGroup g) ->
               (isThread x = Some true <-> 2 <= List.length g))
         /\ (2 <= List.length g ->
               Forall (fun x => isThread x = Some true
                                /\ threadTweets x = Some (map text g))
                 (emitGroup g)
               /\ map threadPosition (emitGroup g)
                  = map Some (seq 1 (List.length g)))
         /\ (List.length g = 1 -> Forall noThreadFields (emitGroup g)).
Proof.
  intros els groups. split; [apply processTweets_groups|].
  split; [apply (concat_groupsFrom els [] "")|].
  intros g Hg.
  assert (Forall noThreadFields g) as Hplain.
  { apply Forall_forall. intros t Ht.
    pose proof (extracted_noThreadFields els) as H.
    rewrite Forall_forall in H. apply H.
    eapply group_members_extracted; eauto. }
  assert (map text (emitGroup g) = map text g) as Htext.
  { apply sameContent_texts, emitGroup_content. }
  assert (2 <= List.length g ->
          Forall (fun x => isThread x = Some true
                           /\ threadTweets x = Some (map text g))
            (emitGroup g)) as Hmarks.
  { intros Hlen. rewrite emitGroup_thread by exact Hlen.
    apply finalize_marks. }
  split; [apply (groupsFrom_nonempty els [] "" g Hg)|].
  split; [exact Htext|].
  split; [|split].
  - intros x Hx. split.
    + intros Hthread.
      destruct g as [|a [|b r]]; simpl; try lia.
      * destruct Hx.
      * rewrite emitGroup_single in Hx. destruct Hx as [<-|[]].
        apply Forall_inv in Hplain. destruct Hplain as [Hno _].
        congruence.
    + intros Hlen. specialize (Hmarks Hlen).
      rewrite Forall_forall in Hmarks. now apply Hmarks.
  - intros Hlen. split; [now apply Hmarks|].
    rewrite emitGroup_thread by exact Hlen.
    apply (finalize_positions (map text g) g 0).
  - intros Hlen. destruct g as [|a [|b r]]; try discriminate.
    rewrite emitGroup_single. exact Hplain.
Qed.

Lemma thread_groups_consistent_witness :
  let g := [ plainTweet "one of three" "ann" "2024-01-15T12:00:00.000Z";
             plainTweet "two of three" "ann" "2024-01-15T12:00:00.000Z";
             plainTweet "three of three" "ann" "2024-01-15T12:00:00.000Z" ] in
  In g (threadGroups threadPage)
  /\ map threadPosition (emitGroup g) = [Some 1; Some 2; Some 3].
Proof.
  intros g.
  assert (In g (threadGroups threadPage)) as Hin
    by (vm_compute; left; reflexivity).
  split; [exact Hin|].
  destruct (thread_groups_consistent threadPage) as (_ & _ & H).
  destruct (H g Hin) as (_ & _ & _ & Hthread & _).
  apply Hthread. simpl. lia.
Defined.

(* ------------------------------------------------------------------ *)
(** ** Properties of the collection cycle *)

Section CycleProperties.

Variable parseDate : string -> JS.Date.

(** C1. A processed tweet whose fingerprint or whose text equals that of
    a retained tweet is not pushed; hence a collection cycle keeps the
    fingerprints pairwise distinct and the texts pairwise distinct, and
    both hold of [allTweets] after every sequence of events that can
    happen to a new scraper. *)
Theorem accumulated_unique :
  (forall cfg all p q,
      In q all -> uniqueId q = uniqueId p \/ text q = text p ->
      scrapeStep parseDate cfg all p = all)
  /\ (forall s page,
         Unique (allTweets s) ->
         Unique (allTweets (this (scrapeTweets parseDate page s))))
  /\ (forall evs, Unique (allTweets (run parseDate newScraper evs))).
Proof.
  split; [|split].
  - intros cfg all p q Hin Hsame.
    apply (scrapeStep_known parseDate cfg all p q Hin).
    unfold sameTweet.
    destruct Hsame as [-> | ->]; rewrite String.eqb_refl;
      [reflexivity|apply orb_true_r].
  - intros s page H. rewrite scrapeTweets_this. simpl.
    now apply collect_unique.
  - intros evs. apply run_always.
    + split; constructor.
    + intros; now apply collect_unique.
    + split; constructor.
Qed.

(** C2. With the configuration of count mode for a positive [n]: a cycle
    that starts with at most [n] tweets ends with at most [n]; a cycle
    that starts with [n] tweets or more leaves [allTweets] as it is; at
    every point of a run started by START there are at most [n] tweets;
    and once there are [n], [allTweets] stays the same for the rest of
    the run. *)
Theorem count_cap :
  forall (n : Z) (startDate endDate : string),
    (0 < n)%Z ->
    let cfg := popupConfig mode_count (Some n) startDate endDate in
    (forall s page,
        config s = cfg ->
        (Z.of_nat (List.length (allTweets s)) <= n)%Z ->
        (Z.of_nat (List.length
                     (allTweets (this (scrapeTweets parseDate page s))))
         <= n)%Z)
    /\ (forall s page,
           config s = cfg ->
           (n <= Z.of_nat (List.length (allTweets s)))%Z ->
           allTweets (this (scrapeTweets parseDate page s)) = allTweets s)
    /\ (forall s0 evs,
           isActive s0 = false -> forallb withinRun evs = true ->
           let s := run parseDate (this (startScraping cfg s0)) evs in
           (Z.of_nat (List.length (allTweets s)) <= n)%Z)
    /\ (forall s evs,
           config s = cfg ->
           Z.of_nat (List.length (allTweets s)) = n ->
           forallb withinRun evs = true ->
           allTweets (run parseDate s evs) = allTweets s).
Proof.
  intros n sd ed Hpos cfg.
  assert (maxTweets cfg = Some n) as Hmax by reflexivity.
  repeat split.
  - intros s page Hcfg Hlen. rewrite scrapeTweets_this. simpl.
    rewrite Hcfg. now apply (collect_capped parseDate cfg _ _ n).
  - intros s page Hcfg Hlen. rewrite scrapeTweets_this. simpl.
    rewrite Hcfg. now apply (collect_full parseDate cfg _ _ n).
  - intros s0 evs Hidle Hevs s.
    apply (run_withinRun parseDate
             (fun all => (Z.of_nat (List.length all) <= n)%Z) cfg).
    + intros all els. now apply collect_capped.
    + exact Hevs.
    + rewrite startScraping_this, Hidle. reflexivity.
    + rewrite startScraping_this, Hidle. simpl. lia.
  - intros s evs Hcfg Hlen Hevs.
    apply (run_withinRun parseDate (fun all => all = allTweets s) cfg).
    + intros all els ->.
      apply (collect_full parseDate cfg _ _ n); [exact Hmax|exact Hpos|lia].
    + exact Hevs.
    + exact Hcfg.
    + reflexivity.
Qed.

(** C3. With the configuration of date mode for a range whose two dates
    parse to [lo] and [hi]: a cycle keeps every retained tweet whose
    timestamp is present and parses within [lo, hi], and so does every
    run started by START; the date filter never drops a tweet whose
    timestamp is absent, empty or does not parse, and such a tweet is
    pushed when no retained tweet matches it. *)
Theorem date_filter_correct :
  forall (maxInput : option Z) (startDate endDate : string) (lo hi : Z),
    parseDate startDate = Some lo -> parseDate endDate = Some hi ->
    let cfg := popupConfig mode_date maxInput startDate endDate in
    (forall s page,
        config s = cfg ->
        Forall (withinRange parseDate lo hi) (allTweets s) ->
        Forall (withinRange parseDate lo hi)
          (allTweets (this (scrapeTweets parseDate page s))))
    /\ (forall s0 evs,
           isActive s0 = false -> forallb withinRun evs = true ->
           Forall (withinRange parseDate lo hi)
             (allTweets
                (run parseDate (this (startScraping cfg s0)) evs)))
    /\ (forall tw,
           noUsableTimestamp parseDate tw ->
           outsideDateRange parseDate cfg tw = false)
    /\ (forall all tw,
           noUsableTimestamp parseDate tw ->
           existsb (sameTweet tw) all = false ->
           scrapeStep parseDate cfg all tw = all ++ [tw]).
Proof.
  intros mx sd ed lo hi Hlo Hhi cfg.
  assert (dateRange cfg = Some (mkDateRange sd ed)) as Hr by reflexivity.
  repeat split.
  - intros s page Hcfg Hall. rewrite scrapeTweets_this. simpl.
    rewrite Hcfg. eapply collect_withinRange; eauto.
  - intros s0 evs Hidle Hevs.
    apply (run_withinRun parseDate
             (Forall (withinRange parseDate lo hi)) cfg).
    + intros all els. eapply collect_withinRange; eauto.
    + exact Hevs.
    + rewrite startScraping_this, Hidle. reflexivity.
    + rewrite startScraping_this, Hidle. constructor.
  - intros tw. apply unusable_not_outside.
  - intros all tw Hts Hnew. unfold scrapeStep.
    rewrite (unusable_not_outside parseDate cfg tw Hts), Hnew.
    reflexivity.
Qed.

(** C6. A second cycle over the same page changes nothing: the object
    after the second [scrapeTweets] is the object after the first, so no
    tweet is pushed. *)
Theorem reobservation_idempotent :
  forall (s : TwitterScraper) (page : Page),
    let s1 := this (scrapeTweets parseDate page s) in
    this (scrapeTweets parseDate page s1) = s1
    /\ allTweets (this (scrapeTweets parseDate page s1)) = allTweets s1.
Proof.
  intros s page s1.
  assert (this (scrapeTweets parseDate page s1) = s1) as H.
  { unfold s1. rewrite !scrapeTweets_this. simpl.
    now rewrite collect_twice. }
  split; [exact H|now rewrite H].
Qed.

(** C10. A processed tweet is not pushed when a retained tweet has the
    same first 50 characters and the same timestamp, whatever the rest of
    the two texts; hence no two retained tweets of a run agree on both. *)
Theorem fingerprint_alone_rejects :
  (forall cfg all p q,
      In q all -> samePrefixAndTimestamp q p ->
      scrapeStep parseDate cfg all p = all)
  /\ (forall evs i j a b,
         let all := allTweets (run parseDate newScraper evs) in
         nth_error all i = Some a -> nth_error all j = Some b ->
         i <> j -> ~ samePrefixAndTimestamp a b).
Proof.
  split.
  - intros cfg all p q Hin Hsame.
    apply (scrapeStep_known parseDate cfg all p q Hin).
    now apply sameTweet_prefix.
  - intros evs i j a b all Ha Hb Hij [Hp Ht].
    assert (Unique all) as [Hid _].
    { apply run_always.
      - split; constructor.
      - intros; now apply collect_unique.
      - split; constructor. }
    apply Hij.
    apply (proj1 (NoDup_nth_error (map uniqueId all)) Hid).
    + rewrite length_map. apply nth_error_Some. congruence.
    + rewrite !nth_error_map, Ha, Hb. simpl.
      unfold uniqueId. now rewrite Hp, Ht.
Qed.

End CycleProperties.

(* ------------------------------------------------------------------ *)
(** ** Properties of the controller *)

Section ControllerProperties.

Variable parseDate : string -> JS.Date.

Lemma sampled_dates doc count :
  getCurrentTweetDates parseDate doc count
  = map parseDate (readableTimestamps doc count).
Proof.
  unfold getCurrentTweetDates, readableTimestamps.
  induction (firstn count doc) as [|e r IH]; simpl; [reflexivity|].
  rewrite map_app, <- IH. f_equal.
  unfold readableTimestamp.
  destruct (q_time e) as [[ts|]|]; simpl; try reflexivity.
  unfold JS.truthy. destruct (String.eqb_spec ts ""); reflexivity.
Qed.

Lemma readable_count doc count :
  List.length (readableTimestamps doc count)
  = List.length (filter hasReadableTimestamp (firstn count doc)).
Proof.
  unfold readableTimestamps, hasReadableTimestamp.
  induction (firstn count doc) as [|e r IH]; simpl; [reflexivity|].
  rewrite length_app, IH.
  now destruct (readableTimestamp e).
Qed.

Lemma readable_in doc count ts :
  In ts (readableTimestamps doc count)
  <-> exists e, In e (firstn count doc) /\ readableTimestamp e = Some ts.
Proof.
  unfold readableTimestamps. rewrite in_flat_map.
  split; intros (e & He & H); exists e; split; try exact He.
  - destruct (readableTimestamp e); [|destruct H].
    destruct H as [->|[]]. reflexivity.
  - rewrite H. now left.
Qed.

Lemma date_lt_spec a b :
  JS.date_lt a b = true
  <-> exists x y, a = Some x /\ b = Some y /\ (x < y)%Z.
Proof.
  unfold JS.date_lt. split.
  - destruct a as [x|], b as [y|]; try discriminate.
    intros H. apply Z.ltb_lt in H. eauto.
  - intros (x & y & -> & -> & H). now apply Z.ltb_lt.
Qed.

(** C5. For the configuration the popup builds: in count mode with a
    positive [n] the stop condition holds exactly when [allTweets] has
    at least [n] elements; in all mode it never holds; in date mode it
    holds exactly when at least three of the first five rendered nodes
    have a readable timestamp and every such timestamp parses to a date
    strictly before the start date. *)
Theorem stop_condition :
  forall scrapeMode maxInput startDate endDate s doc,
    config s = popupConfig scrapeMode maxInput startDate endDate ->
    match scrapeMode with
    | mode_count =>
        forall n, maxInput = Some n -> (0 < n)%Z ->
          (shouldStopScraping parseDate s doc = true
           <-> (n <= Z.of_nat (List.length (allTweets s)))%Z)
    | mode_all => shouldStopScraping parseDate s doc = false
    | mode_date =>
        shouldStopScraping parseDate s doc = true
        <-> (3 <= List.length (filter hasReadableTimestamp (firstn 5 doc))
             /\ forall e ts,
                  In e (firstn 5 doc) -> readableTimestamp e = Some ts ->
                  exists t lo,
                    parseDate ts = Some t
                    /\ parseDate startDate = Some lo /\ (t < lo)%Z)
    end.
Proof.
  intros mode mx sd ed s doc Hcfg.
  unfold shouldStopScraping. rewrite Hcfg.
  destruct mode;
    cbn [popupConfig scrapeAll maxTweets dateRange start end_].
  - reflexivity.
  - intros n -> Hpos.
    rewrite (limitReached_spec _ (allTweets s) n) by (reflexivity || exact Hpos).
    destruct (Z.leb_spec n (Z.of_nat (List.length (allTweets s)))).
    + tauto.
    + split; [discriminate|lia].
  - unfold limitReached.
    cbn [popupConfig scrapeAll maxTweets dateRange start end_].
    rewrite sampled_dates, length_map, readable_count.
    destruct (Nat.leb_spec 3
                (List.length (filter hasReadableTimestamp (firstn 5 doc))))
      as [Hlen|Hlen]; cbn [andb].
    + destruct (forallb _ _) eqn:Hall.
      * split; [intros _|reflexivity]. split; [exact Hlen|].
        intros e ts He Hts.
        rewrite forallb_forall in Hall.
        specialize (Hall (parseDate ts)).
        rewrite date_lt_spec in Hall.
        destruct Hall as (t & lo & Ht & Hlo & Hlt); [|eauto].
        apply in_map, readable_in. eauto.
      * split; [discriminate|]. intros [_ H].
        rewrite <- Hall. apply forallb_forall.
        intros d Hd. apply in_map_iff in Hd.
        destruct Hd as (ts & <- & Hts).
        apply readable_in in Hts. destruct Hts as (e & He & Hts).
        apply date_lt_spec.
        destruct (H e ts He Hts) as (t & lo & Ht & Hlo & Hlt). eauto.
    + split; [discriminate|]. intros [H _]. lia.
Qed.

(** C8. START while a run is active does nothing: the object is left as
    it is, no effect is performed and no method is launched (the listener
    only acknowledges). START while inactive leaves a new run with the
    supplied configuration, the active flag set and [allTweets] empty,
    and only then launches the seek loop or the first cycle. Both hold of
    the method [startScraping] and of the listener handling a
    START_SCRAPING message, which adds only its acknowledgement. *)
Theorem start_command :
  forall (cfg : ScrapingConfig) (s : TwitterScraper),
    (isActive s = true ->
       startScraping cfg s = (LaunchNothing, s, [])
       /\ this (onMessage (START_SCRAPING cfg) s) = s
       /\ onMessage (START_SCRAPING cfg) s
          = (LaunchNothing, s, [SendResponse (RespStatus "started")]))
    /\ (isActive s = false ->
          let r := startScraping cfg s in
          this r = {| allTweets := []; scrollInterval := scrollInterval s;
                      isActive := true; config := cfg |}
          /\ result r = match dateRange cfg with
                        | Some _ => LaunchScrollToDateRange
                        | None => LaunchScrapeAndScroll
                        end
          /\ effects r
             = [SendMessage (STATUS_UPDATE "Starting scraping..." 0)]
          /\ onMessage (START_SCRAPING cfg) s
             = (match dateRange cfg with
                | Some _ => LaunchScrollToDateRange
                | None => LaunchScrapeAndScroll
                end,
                {| allTweets := []; scrollInterval := scrollInterval s;
                   isActive := true; config := cfg |},
                [SendMessage (STATUS_UPDATE "Starting scraping..." 0);
                 SendResponse (RespStatus "started")])).
Proof.
  intros cfg s. split.
  - intros Hact. split; [|split].
    + unfold startScraping, bind, get. simpl. rewrite Hact. reflexivity.
    + unfold onMessage. rewrite !this_bind. simpl.
      rewrite startScraping_this, Hact. reflexivity.
    + unfold onMessage, startScraping, bind, get. simpl.
      rewrite Hact. reflexivity.
  - intros Hidle r. unfold r, onMessage, startScraping, bind, get. simpl.
    rewrite Hidle. simpl.
    destruct (dateRange cfg); repeat split.
Qed.

Lemma seekBody_found lo hi attempts doc s :
  (exists t, In (Some t) (getCurrentTweetDates parseDate doc 3)
             /\ (lo <= t <= hi)%Z) ->
  seekBody parseDate (Some lo) (Some hi) attempts doc s
  = (SeekScrape, s,
     [SendMessage (STATUS_UPDATE "Found tweets in range, scraping..."
                     (List.length (allTweets s)))]).
Proof.
  intros (t & Hin & Hlo & Hhi). unfold seekBody.
  destruct (getCurrentTweetDates parseDate doc 3) as [|d r] eqn:E;
    [destruct Hin|].
  cbn [List.length Nat.eqb].
  assert (existsb (fun date => JS.date_ge date (Some lo)
                               && JS.date_le date (Some hi)) (d :: r)
          = true) as ->.
  { apply existsb_exists. exists (Some t). split; [exact Hin|].
    unfold JS.date_ge, JS.date_le.
    apply andb_true_iff. split; now apply Z.leb_le. }
  reflexivity.
Qed.

Lemma seekBody_newer lo hi attempts doc s :
  getCurrentTweetDates parseDate doc 3 <> [] ->
  (forall d, In d (getCurrentTweetDates parseDate doc 3) ->
             exists t, d = Some t /\ (hi < t)%Z) ->
  seekBody parseDate (Some lo) (Some hi) attempts doc s
  = (SeekAgain, s, [ScrollToBottom; Delay 2000]).
Proof.
  intros Hne Hall. unfold seekBody.
  destruct (getCurrentTweetDates parseDate doc 3) as [|d r] eqn:E;
    [contradiction|].
  cbn [List.length Nat.eqb].
  destruct (existsb _ (d :: r)) eqn:Hex.
  { apply existsb_exists in Hex. destruct Hex as (x & Hx & Hin).
    destruct (Hall x Hx) as (t & -> & Hlt).
    apply andb_true_iff in Hin. destruct Hin as [_ Hle].
    unfold JS.date_le in Hle. apply Z.leb_le in Hle. lia. }
  assert (forallb (fun date => JS.date_gt date (Some hi)) (d :: r) = true)
    as ->.
  { apply forallb_forall. intros x Hx.
    destruct (Hall x Hx) as (t & -> & Hlt).
    unfold JS.date_gt, JS.date_lt. now apply Z.ltb_lt. }
  reflexivity.
Qed.

Lemma seekLoop_turn remaining startDate endDate pages s step out :
  isActive s = true ->
  seekBody parseDate startDate endDate (maxAttempts - S remaining)
    (pages (maxAttempts - S remaining)) s = (step, s, out) ->
  seekLoop parseDate (S remaining) startDate endDate pages s
  = match step with
    | SeekAgain =>
        let r := seekLoop parseDate remaining startDate endDate pages s in
        (result r, this r, out ++ effects r)
    | SeekScrape => (SeekCollecting, s, out ++ [])
    | SeekGiveUp => (SeekStopped, s, out ++ [])
    end.
Proof.
  intros Hact Hbody.
  cbn [seekLoop]. unfold bind at 1, get. rewrite Hact.
  unfold bind at 1. rewrite Hbody.
  destruct step; try reflexivity.
  now destruct (seekLoop parseDate remaining startDate endDate pages s)
    as [[r s'] o].
Qed.

(** C7, amended. While the scraper is active and fewer than 50 attempts
    have been made, a turn of the seek loop whose sample (the readable
    timestamps of the first three nodes) has a date within [lo, hi] ends
    the loop at once with a call of [scrapeAndScroll], without scrolling;
    a turn whose sample is non-empty and entirely after [hi] scrolls
    down, waits two seconds and goes on with the next turn, without
    collecting. After 50 attempts the loop ends with a call of
    [scrapeAndScroll] whatever the samples were. [scrollToDateRange] is
    this loop with 50 turns left, on the parsed dates of the range. *)
Theorem seek_turns :
  forall (lo hi : Z) (remaining : nat) (pages : nat -> list Element)
         (s : TwitterScraper),
    isActive s = true ->
    let attempts := maxAttempts - S remaining in
    let sample := getCurrentTweetDates parseDate (pages attempts) 3 in
    ((exists t, In (Some t) sample /\ (lo <= t <= hi)%Z) ->
       seekLoop parseDate (S remaining) (Some lo) (Some hi) pages s
       = (SeekCollecting, s,
          [SendMessage (STATUS_UPDATE "Found tweets in range, scraping..."
                          (List.length (allTweets s)))]))
    /\ (sample <> [] ->
        (forall d, In d sample -> exists t, d = Some t /\ (hi < t)%Z) ->
        let r := seekLoop parseDate remaining (Some lo) (Some hi) pages s in
        seekLoop parseDate (S remaining) (Some lo) (Some hi) pages s
        = (result r, this r, ScrollToBottom :: Delay 2000 :: effects r))
    /\ seekLoop parseDate 0 (Some lo) (Some hi) pages s
       = (SeekCollecting, s,
          [SendMessage
             (STATUS_UPDATE "Starting scraping from current position"
                (List.length (allTweets s)))])
    /\ (forall range,
          dateRange (config s) = Some range ->
          parseDate (start range) = Some lo ->
          parseDate (end_ range) = Some hi ->
          let r :=
            seekLoop parseDate maxAttempts (Some lo) (Some hi) pages s in
          scrollToDateRange parseDate pages s
          = (result r, this r,
             SendMessage (STATUS_UPDATE "Finding tweets in date range..."
                            (List.length (allTweets s)))
             :: effects r)).
Proof.
  intros lo hi remaining pages s Hact attempts sample.
  split; [|split; [|split]].
  - intros Hin.
    rewrite (seekLoop_turn remaining _ _ pages s SeekScrape _ Hact
               (seekBody_found lo hi attempts (pages attempts) s Hin)).
    reflexivity.
  - intros Hne Hall r.
    rewrite (seekLoop_turn remaining _ _ pages s SeekAgain _ Hact
               (seekBody_newer lo hi attempts (pages attempts) s Hne Hall)).
    reflexivity.
  - reflexivity.
  - intros range Hr Hlo Hhi r.
    unfold scrollToDateRange.
    cbv beta iota zeta delta [bind get sendStatusUpdate emit].
    rewrite Hr, Hlo, Hhi. fold r.
    now destruct r as [[e s'] o].
Qed.

End ControllerProperties.

(* ------------------------------------------------------------------ *)
(** ** Instances on the sample data *)

(** C7 as stated fails at the attempt ceiling: on a page whose three
    sampled timestamps are all of March 2024, after the end of the range
    1 to 31 January 2024, and which stays so at every attempt, the seek
    loop scrolls 50 times and then ends with a call of [scrapeAndScroll]:
    collection starts although every sample was newer than the end. *)
Lemma seek_ceiling_counterexample :
  getCurrentTweetDates sampleDate marchPage 3 <> []
  /\ forallb (fun d => JS.date_gt d (sampleDate "2024-01-31"))
       (getCurrentTweetDates sampleDate marchPage 3) = true
  /\ result (scrollToDateRange sampleDate (fun _ => marchPage)
               (activeScraper januaryConfig []))
     = SeekCollecting
  /\ List.length
       (filter (fun e => match e with ScrollToBottom => true | _ => false end)
          (effects (scrollToDateRange sampleDate (fun _ => marchPage)
                      (activeScraper januaryConfig []))))
     = 50.
Proof.
  split; [vm_compute; discriminate|].
  split; [vm_compute; reflexivity|].
  split; vm_compute; reflexivity.
Qed.

Lemma seek_turns_witness :
  seekLoop sampleDate 50 (Some 1704067200000%Z) (Some 1706659200000%Z)
    (fun _ => threadPage) (activeScraper januaryConfig [])
  = (SeekCollecting, activeScraper januaryConfig [],
     [SendMessage (STATUS_UPDATE "Found tweets in range, scraping..." 0)])
  /\ seekLoop sampleDate 50 (Some 1704067200000%Z) (Some 1706659200000%Z)
       (fun _ => marchPage) (activeScraper januaryConfig [])
     = (result (seekLoop sampleDate 49 (Some 1704067200000%Z)
                  (Some 1706659200000%Z) (fun _ => marchPage)
                  (activeScraper januaryConfig [])),
        this (seekLoop sampleDate 49 (Some 1704067200000%Z)
                (Some 1706659200000%Z) (fun _ => marchPage)
                (activeScraper januaryConfig [])),
        ScrollToBottom :: Delay 2000
        :: effects (seekLoop sampleDate 49 (Some 1704067200000%Z)
                      (Some 1706659200000%Z) (fun _ => marchPage)
                      (activeScraper januaryConfig []))).
Proof.
  split.
  - refine (proj1 (seek_turns sampleDate 1704067200000%Z 1706659200000%Z 49
                     (fun _ => threadPage) (activeScraper januaryConfig [])
                     _) _).
    + reflexivity.
    + exists 1705320000000%Z. split; [vm_compute; left; reflexivity|lia].
  - refine (proj1 (proj2
              (seek_turns sampleDate 1704067200000%Z 1706659200000%Z 49
                 (fun _ => marchPage) (activeScraper januaryConfig [])
                 _)) _ _).
    + reflexivity.
    + vm_compute. discriminate.
    + intros d Hd. vm_compute in Hd.
      destruct Hd as [<-|[<-|[<-|[]]]]; eexists; (split; [reflexivity|lia]).
Defined.

Lemma accumulated_unique_witness :
  scrapeStep sampleDate (countConfig 5)
    [plainTweet "coffee first" "cy" "2024-03-10T08:30:00.000Z"]
    (plainTweet "coffee first" "dan" "2024-03-11T09:00:00.000Z")
  = [plainTweet "coffee first" "cy" "2024-03-10T08:30:00.000Z"]
  /\ Unique
       (allTweets
          (this (scrapeTweets sampleDate (mkPage marchPage [])
                   (activeScraper (countConfig 5)
                      [plainTweet "coffee first" "cy"
                         "2024-03-10T08:30:00.000Z"])))).
Proof.
  destruct (accumulated_unique sampleDate) as (Hreject & Hcycle & _).
  split.
  - apply (Hreject _ _ _
             (plainTweet "coffee first" "cy" "2024-03-10T08:30:00.000Z")).
    + left. reflexivity.
    + right. reflexivity.
  - apply Hcycle. simpl.
    split; (constructor; [simpl; tauto|constructor]).
Defined.

Lemma count_cap_witness :
  (Z.of_nat
     (List.length
        (allTweets
           (this (scrapeTweets sampleDate (mkPage marchPage [])
                    (activeScraper (countConfig 2) []))))) <= 2)%Z
  /\ allTweets
       (this (scrapeTweets sampleDate (mkPage marchPage [])
                (activeScraper (countConfig 2)
                   [plainTweet "one" "ann" "2024-01-15T12:00:00.000Z";
                    plainTweet "two" "bob" "2024-01-15T12:00:00.000Z"])))
     = [plainTweet "one" "ann" "2024-01-15T12:00:00.000Z";
        plainTweet "two" "bob" "2024-01-15T12:00:00.000Z"].
Proof.
  assert (0 < 2)%Z as Hpos by lia.
  destruct (count_cap sampleDate 2 "" "" Hpos) as (Hcap & Hfull & _).
  split.
  - apply Hcap; [reflexivity|simpl; lia].
  - apply (Hfull (activeScraper (countConfig 2)
                    [plainTweet "one" "ann" "2024-01-15T12:00:00.000Z";
                     plainTweet "two" "bob" "2024-01-15T12:00:00.000Z"]));
      [reflexivity|simpl; lia].
Defined.

Lemma date_filter_correct_witness :
  Forall (withinRange sampleDate 1704067200000 1706659200000)
    (allTweets
       (this (scrapeTweets sampleDate (mkPage threadPage [])
                (activeScraper januaryConfig []))))
  /\ outsideDateRange sampleDate januaryConfig
       (plainTweet "no clock on this one" "ann" "") = false.
Proof.
  assert (sampleDate "2024-01-01" = Some 1704067200000%Z) as Hlo
    by reflexivity.
  assert (sampleDate "2024-01-31" = Some 1706659200000%Z) as Hhi
    by reflexivity.
  destruct (date_filter_correct sampleDate None "2024-01-01" "2024-01-31"
              _ _ Hlo Hhi) as (Hcycle & _ & Hkeep & _).
  split.
  - apply Hcycle; [reflexivity|constructor].
  - apply Hkeep. simpl. left. reflexivity.
Defined.

Lemma fingerprint_alone_rejects_witness :
  scrapeStep sampleDate (countConfig 5)
    [plainTweet longTextA "ann" "2024-01-15T12:00:00.000Z"]
    (plainTweet longTextB "bob" "2024-01-15T12:00:00.000Z")
  = [plainTweet longTextA "ann" "2024-01-15T12:00:00.000Z"]
  /\ ~ samePrefixAndTimestamp
        (plainTweet "spring is coming" "ann" "2024-03-12T10:00:00.000Z")
        (plainTweet "release notes are out" "bob"
           "2024-03-11T09:00:00.000Z").
Proof.
  destruct (fingerprint_alone_rejects sampleDate) as (Hreject & Hrun).
  split.
  - apply (Hreject _ _ _
             (plainTweet longTextA "ann" "2024-01-15T12:00:00.000Z")).
    + left. reflexivity.
    + split; reflexivity.
  - apply (Hrun [Received (START_SCRAPING (countConfig 5));
                 Invoked (mkPage marchPage []) marchPage 1] 0 1).
    + vm_compute. reflexivity.
    + vm_compute. reflexivity.
    + lia.
Defined.

Lemma stop_condition_witness :
  shouldStopScraping sampleDate
    (activeScraper (countConfig 2)
       [plainTweet "one" "ann" "2024-01-15T12:00:00.000Z";
        plainTweet "two" "bob" "2024-01-15T12:00:00.000Z"]) marchPage
  = true
  <-> (2 <= Z.of_nat 2)%Z.
Proof.
  apply (stop_condition sampleDate mode_count (Some 2%Z) "" ""
           (activeScraper (countConfig 2)
              [plainTweet "one" "ann" "2024-01-15T12:00:00.000Z";
               plainTweet "two" "bob" "2024-01-15T12:00:00.000Z"])
           marchPage eq_refl 2%Z eq_refl).
  lia.
Defined.

Lemma start_command_witness :
  startScraping januaryConfig
    (activeScraper (countConfig 2)
       [plainTweet "one" "ann" "2024-01-15T12:00:00.000Z"])
  = (LaunchNothing,
     activeScraper (countConfig 2)
       [plainTweet "one" "ann" "2024-01-15T12:00:00.000Z"], [])
  /\ this (startScraping januaryConfig newScraper)
     = {| allTweets := []; scrollInterval := None; isActive := true;
          config := januaryConfig |}
  /\ onMessage (START_SCRAPING januaryConfig)
       {| allTweets := [plainTweet "one" "ann" "2024-01-15T12:00:00.000Z"];
          scrollInterval := None; isActive := false;
          config := countConfig 2 |}
     = (LaunchScrollToDateRange,
        {| allTweets := []; scrollInterval := None; isActive := true;
           config := januaryConfig |},
        [SendMessage (STATUS_UPDATE "Starting scraping..." 0);
         SendResponse (RespStatus "started")])
  /\ onMessage (START_SCRAPING januaryConfig)
       (activeScraper (countConfig 2)
          [plainTweet "one" "ann" "2024-01-15T12:00:00.000Z"])
     = (LaunchNothing,
        activeScraper (countConfig 2)
          [plainTweet "one" "ann" "2024-01-15T12:00:00.000Z"],
        [SendResponse (RespStatus "started")]).
Proof.
  split; [|split; [|split]].
  - apply (proj1 (start_command januaryConfig
                    (activeScraper (countConfig 2)
                       [plainTweet "one" "ann" "2024-01-15T12:00:00.000Z"]))).
    reflexivity.
  - apply (proj2 (start_command januaryConfig newScraper)).
    reflexivity.
  - apply (proj2 (start_command januaryConfig
                    {| allTweets :=
                         [plainTweet "one" "ann" "2024-01-15T12:00:00.000Z"];
                       scrollInterval := None; isActive := false;
                       config := countConfig 2 |})).
    reflexivity.
  - apply (proj1 (start_command januaryConfig
                    (activeScraper (countConfig 2)
                       [plainTweet "one" "ann" "2024-01-15T12:00:00.000Z"]))).
    reflexivity.
Defined.

(** Five tweets by five authors without a connector: five records, none
    marked as a thread. *)
Example five_singletons :
  map isThread
    (processTweetsForThreads
       [ tweetNode "first post" "ann" "2024-01-15T12:00:00.000Z" false;
         tweetNode "second post" "bob" "2024-01-15T12:00:00.000Z" false;
         tweetNode "third post" "cy" "2024-01-15T12:00:00.000Z" false;
         tweetNode "fourth post" "dan" "2024-01-15T12:00:00.000Z" false;
         tweetNode "fifth post" "eve" "2024-01-15T12:00:00.000Z" false ])
  = [None; None; None; None; None].
Proof. reflexivity. Qed.

(** Three tweets by one author, the second and third with the connector,
    followed by another author: one thread of three and a single tweet. *)
Example thread_of_three :
  map (fun t => (isThread t, threadPosition t, threadTweets t))
    (processTweetsForThreads threadPage)
  = [ (Some true, Some 1,
       Some ["one of three"; "two of three"; "three of three"]);
      (Some true, Some 2,
       Some ["one of three"; "two of three"; "three of three"]);
      (Some true, Some 3,
       Some ["one of three"; "two of three"; "three of three"]);
      (None, None, None) ].
Proof. reflexivity. Qed.

(** Count mode with a limit of two and three new tweets on the page: the
    first two are retained and the stop condition holds. *)
Example count_of_two :
  map text
    (allTweets (this (scrapeTweets sampleDate (mkPage marchPage [])
                        (activeScraper (countConfig 2) []))))
  = ["spring is coming"; "release notes are out"]
  /\ result (scrapeAndScroll sampleDate (mkPage marchPage []) marchPage 1
               (activeScraper (countConfig 2) []))
     = CycleStopped.
Proof. split; vm_compute; reflexivity. Qed.

(** Date mode for January 2024: the tweets of March and of December are
    dropped, the thread of 15 January is retained. *)
Example january_only :
  map text
    (allTweets (this (scrapeTweets sampleDate
                        (mkPage (marchPage ++ threadPage) [])
                        (activeScraper januaryConfig []))))
  = ["one of three"; "two of three"; "three of three"].
Proof. vm_compute. reflexivity. Qed.

(** Two texts that differ after their first 50 characters, with one
    timestamp: only the first is retained. *)
Example same_prefix_page :
  map text
    (allTweets (this (scrapeTweets sampleDate (mkPage samePrefixPage [])
                        (activeScraper (countConfig 5) []))))
  = [longTextA]
  /\ longTextA <> longTextB.
Proof. split; [vm_compute; reflexivity|discriminate]. Qed.

(* ------------------------------------------------------------------ *)
(** ** Further properties of thread reconstruction *)

Lemma mapi_from_in {A B} (f : nat -> A -> B) l : forall i x,
  In x (mapi_from i f l) ->
  exists j t, nth_error l j = Some t /\ x = f (i + j) t.
Proof.
  induction l as [|a r IH]; intros i x; simpl; [tauto|].
  intros [<-|H].
  - exists 0, a. split; [reflexivity|]. now rewrite Nat.add_0_r.
  - destruct (IH (S i) x H) as (j & t & Hj & ->).
    exists (S j), t. split; [exact Hj|]. f_equal. lia.
Qed.

Lemma emitGroup_threadRecord g :
  Forall noThreadFields g -> Forall threadRecord (emitGroup g).
Proof.
  intros Hplain.
  destruct g as [|a [|b r]].
  - constructor.
  - rewrite emitGroup_single. constructor; [|constructor].
    left. now apply Forall_inv in Hplain.
  - rewrite emitGroup_thread by (simpl; lia).
    apply Forall_forall. intros x Hx.
    apply mapi_from_in in Hx. destruct Hx as (j & t & Hj & ->).
    right. split; [reflexivity|].
    exists (map text (a :: b :: r)), (j + 1).
    assert (j < List.length (a :: b :: r)) as Hlt
      by (apply nth_error_Some; congruence).
    cbn [markThread threadTweets threadPosition text Nat.add].
    rewrite length_map. repeat split; try (simpl in *; lia).
    replace (j + 1 - 1) with j by lia.
    now rewrite nth_error_map, Hj.
Qed.

Lemma processTweets_threadRecord els :
  Forall threadRecord (processTweetsForThreads els).
Proof.
  rewrite processTweets_groups.
  apply Forall_forall. intros x Hx.
  apply in_flat_map in Hx. destruct Hx as (g & Hg & Hx).
  assert (Forall noThreadFields g) as Hplain.
  { apply Forall_forall. intros t Ht.
    pose proof (extracted_noThreadFields els) as H.
    rewrite Forall_forall in H. apply H.
    eapply group_members_extracted; eauto. }
  pose proof (emitGroup_threadRecord g Hplain) as H.
  rewrite Forall_forall in H. now apply H.
Qed.

Lemma groupsFrom_unconnected els : forall current lastAuthor,
  (forall e, In e els ->
             q_threadConnector e || q_previousThreadConnector e = false) ->
  groupsFrom current lastAuthor els
  = closeGroup current ++ map (fun t => [t]) (extracted els).
Proof.
  induction els as [|e rest IH]; intros current la H; simpl.
  - now rewrite app_nil_r.
  - assert (forall e', In e' rest ->
              q_threadConnector e' || q_previousThreadConnector e' = false)
      as Hrest by (intros e' He'; apply H; now right).
    destruct (extractTweetData e) as [t|]; [|now apply IH].
    unfold isThreadContinuation. rewrite (H e) by now left.
    simpl. rewrite IH by exact Hrest. reflexivity.
Qed.

(** X1. Without the connector line there are no threads: when no node has
    the thread connector, in itself or in the previous cell,
    [processTweetsForThreads] returns the extracted records unchanged. *)
Theorem unconnected_tweets_unchanged :
  forall tweetElements : list Element,
    (forall e, In e tweetElements ->
               q_threadConnector e || q_previousThreadConnector e = false) ->
    processTweetsForThreads tweetElements = extracted tweetElements.
Proof.
  intros els H.
  rewrite processTweets_groups. unfold threadGroups.
  rewrite (groupsFrom_unconnected els [] "" H). simpl.
  induction (extracted els) as [|t r IH]; simpl; [reflexivity|].
  now rewrite IH.
Qed.

Lemma unconnected_tweets_unchanged_witness :
  processTweetsForThreads marchPage = extracted marchPage.
Proof.
  apply unconnected_tweets_unchanged.
  intros e He. simpl in He.
  destruct He as [<-|[<-|[<-|[]]]]; reflexivity.
Defined.

Lemma or_empty_author la (t : ScrapedTweet) :
  JS.or_empty (author t) = la -> la <> "" -> author t = Some la.
Proof.
  unfold JS.or_empty. destruct (author t) as [a|]; [|congruence].
  destruct (JS.truthy a); congruence.
Qed.

Lemma groupsFrom_author els : forall current lastAuthor g,
  (forall t, In t current -> JS.or_empty (author t) = lastAuthor) ->
  (2 <= List.length current -> lastAuthor <> "") ->
  In g (groupsFrom current lastAuthor els) ->
  exists a, (forall t, In t g -> JS.or_empty (author t) = a)
            /\ (2 <= List.length g -> a <> "").
Proof.
  induction els as [|e rest IH]; intros current la g Hcur Hne; simpl.
  - destruct current; simpl; [tauto|].
    intros [<-|[]]. eauto.
  - destruct (extractTweetData e) as [t|]; [|now apply IH].
    destruct (isThreadContinuation e la (author t)
              && (0 <? List.length current)) eqn:Hcont.
    + apply IH.
      * apply andb_true_iff in Hcont. destruct Hcont as [Hc _].
        unfold isThreadContinuation in Hc.
        repeat (apply andb_true_iff in Hc; destruct Hc as [Hc ?]).
        destruct (author t) as [a|] eqn:Ha; [|discriminate].
        match goal with H : (la =? a)%string = true |- _ =>
          apply String.eqb_eq in H; subst a end.
        intros t' Ht'. apply in_app_or in Ht'.
        destruct Ht' as [Ht'|[<-|[]]]; [now apply Hcur|].
        rewrite Ha. unfold JS.or_empty.
        match goal with H : JS.truthy_opt (Some la) = true |- _ =>
          simpl in H; now rewrite H end.
      * intros _. apply andb_true_iff in Hcont. destruct Hcont as [Hc _].
        unfold isThreadContinuation in Hc.
        repeat (apply andb_true_iff in Hc; destruct Hc as [Hc ?]).
        match goal with H : JS.truthy la = true |- _ =>
          intros ->; discriminate H end.
    + rewrite in_app_iff. intros [H|H].
      * destruct current; simpl in H; [tauto|].
        destruct H as [<-|[]]. eauto.
      * apply (IH [t] (JS.or_empty (author t)) g); [| |exact H].
        -- intros t' [<-|[]]. reflexivity.
        -- simpl. lia.
Qed.

(** X2. A thread has one author: the members of a group of two or more
    records, as emitted, all carry the same non-empty [author]. *)
Theorem thread_has_one_author :
  forall (tweetElements : list Element) (g : list ScrapedTweet),
    In g (threadGroups tweetElements) -> 2 <= List.length g ->
    exists a, a <> ""
              /\ forall x, In x (emitGroup g) -> author x = Some a.
Proof.
  intros els g Hg Hlen.
  destruct (groupsFrom_author els [] "" g) as (a & Hall & Hne);
    [intros t []|simpl; lia|exact Hg|].
  exists a. split; [now apply Hne|].
  intros x Hx.
  pose proof (emitGroup_content g) as Hc.
  destruct (In_nth_error _ _ Hx) as [i Hi].
  assert (exists t, nth_error g i = Some t /\ sameContent t x)
    as (t & Ht & Hsame).
  { clear - Hc Hi. revert i Hi.
    induction Hc as [|u v l l' Huv _ IH]; intros [|i] Hi; simpl in *;
      try discriminate.
    - injection Hi as <-. eauto.
    - now apply IH. }
  destruct Hsame as (_ & _ & Hauthor & _). rewrite <- Hauthor.
  apply or_empty_author; [|now apply Hne].
  apply Hall. eapply nth_error_In; eauto.
Qed.

Lemma thread_has_one_author_witness :
  exists a, a <> ""
    /\ forall x,
         In x (emitGroup
                 [ plainTweet "one of three" "ann" "2024-01-15T12:00:00.000Z";
                   plainTweet "two of three" "ann" "2024-01-15T12:00:00.000Z";
                   plainTweet "three of three" "ann"
                     "2024-01-15T12:00:00.000Z" ]) ->
         author x = Some a.
Proof.
  apply (thread_has_one_author threadPage).
  - vm_compute. left. reflexivity.
  - simpl. lia.
Defined.

(* ------------------------------------------------------------------ *)
(** ** Further properties of the collection cycle *)

Lemma Subsequence_in {A} (l l' : list A) x :
  Subsequence l l' -> In x l -> In x l'.
Proof.
  induction 1 as [|y l l' _ IH|y l l' _ IH]; simpl; [tauto|tauto|].
  intros [->|H]; [now left|right; now apply IH].
Qed.

Section MoreCycleFacts.

Variable parseDate : string -> JS.Date.

Lemma fold_appends cfg ps : forall all,
  exists added,
    fold_left (scrapeStep parseDate cfg) ps all = all ++ added
    /\ Subsequence added ps.
Proof.
  induction ps as [|p r IH]; intros all; simpl.
  - exists []. split; [now rewrite app_nil_r|constructor].
  - destruct (scrapeStep_cases parseDate cfg all p) as [->|(-> & _)].
    + destruct (IH all) as (added & -> & Hsub).
      exists added. split; [reflexivity|now constructor].
    + destruct (IH (all ++ [p])) as (added & -> & Hsub).
      exists (p :: added). split; [now rewrite <- app_assoc|].
      now constructor.
Qed.

(** X3. A cycle only appends: [allTweets] after [scrapeTweets] is
    [allTweets] before it followed by some of the records that thread
    reconstruction returns for the page, in their order; nothing is
    removed, replaced or reordered. *)
Theorem cycle_only_appends :
  forall (s : TwitterScraper) (page : Page),
  exists added,
    allTweets (this (scrapeTweets parseDate page s)) = allTweets s ++ added
    /\ Subsequence added (processTweetsForThreads (tweetElements page)).
Proof.
  intros s page. rewrite scrapeTweets_this. simpl.
  apply fold_appends.
Qed.

Lemma collect_threadRecord cfg all els :
  Forall threadRecord all ->
  Forall threadRecord (collect parseDate cfg all els).
Proof.
  intros Hall. unfold collect.
  destruct (fold_appends cfg (processTweetsForThreads els) all)
    as (added & -> & Hsub).
  apply Forall_app. split; [exact Hall|].
  apply Forall_forall. intros x Hx.
  pose proof (processTweets_threadRecord els) as H.
  rewrite Forall_forall in H. apply H.
  eapply Subsequence_in; eauto.
Qed.

(** X4. Thread fields are consistent on every record: a record returned by
    [processTweetsForThreads], and every record of [allTweets] after any
    sequence of events on a new scraper, either has no thread field, or
    has [isThread = true] with at least two [threadTweets], a
    [threadPosition] between 1 and their number, and its own text at that
    position. *)
Theorem thread_fields_consistent :
  (forall tweetElements,
      Forall threadRecord (processTweetsForThreads tweetElements))
  /\ (forall evs,
        Forall threadRecord (allTweets (run parseDate newScraper evs))).
Proof.
  split; [apply processTweets_threadRecord|].
  intros evs.
  apply (run_always parseDate (Forall threadRecord)).
  - constructor.
  - intros cfg all els. apply collect_threadRecord.
  - constructor.
Qed.

(** X5. Without a limit nothing new is missed: when [maxTweets] is
    undefined or 0, after a cycle every record of the page that the date
    filter does not skip matches a retained tweet, by fingerprint or by
    text. *)
Theorem cycle_covers_page :
  forall (s : TwitterScraper) (page : Page) (p : ScrapedTweet),
    JS.truthy_num (maxTweets (config s)) = false ->
    In p (processTweetsForThreads (tweetElements page)) ->
    outsideDateRange parseDate (config s) p = false ->
    existsb (sameTweet p)
      (allTweets (this (scrapeTweets parseDate page s))) = true.
Proof.
  intros s page p Hmax Hin Hout.
  rewrite scrapeTweets_this. simpl. unfold collect.
  set (all' := fold_left (scrapeStep parseDate (config s))
                 (processTweetsForThreads (tweetElements page))
                 (allTweets s)).
  assert (scrapeStep parseDate (config s) all' p = all') as H
    by (apply (fold_settles parseDate (config s) _ (allTweets s) p Hin)).
  unfold scrapeStep in H.
  assert (limitReached (config s) all' = false) as Hlim.
  { unfold limitReached. destruct (maxTweets (config s)); [|reflexivity].
    now rewrite Hmax. }
  assert (belowLimit (config s) all' = true) as Hbelow.
  { unfold belowLimit. now rewrite Hmax. }
  rewrite Hlim, Hout, Hbelow in H.
  destruct (existsb (sameTweet p) all'); [reflexivity|].
  simpl in H. apply (f_equal (@List.length _)) in H.
  rewrite length_app in H. simpl in H. lia.
Qed.

(** X6. A limit of 0, or one that [parseInt] could not read, is no limit:
    in count mode with such a value a cycle retains what it retains in all
    mode, and the stop condition never holds. *)
Theorem zero_limit_is_no_limit :
  forall (maxInput : option Z) (startDate endDate : string),
    JS.truthy_num maxInput = false ->
    (forall all els,
        collect parseDate (popupConfig mode_count maxInput startDate endDate)
          all els
        = collect parseDate (popupConfig mode_all maxInput startDate endDate)
            all els)
    /\ (forall s doc,
          config s = popupConfig mode_count maxInput startDate endDate ->
          shouldStopScraping parseDate s doc = false).
Proof.
  intros mx sd ed Hmx. split.
  - intros all els. unfold collect.
    generalize (processTweetsForThreads els). intros ps. revert all.
    induction ps as [|p r IH]; intros all; simpl; [reflexivity|].
    rewrite <- IH. f_equal.
    unfold scrapeStep, limitReached, belowLimit, outsideDateRange. simpl.
    destruct mx as [n|]; simpl in *; now rewrite ?Hmx.
  - intros s doc Hcfg. unfold shouldStopScraping, limitReached.
    rewrite Hcfg. simpl. destruct mx as [n|]; simpl in *; now rewrite ?Hmx.
Qed.

(** X7. A negative limit retains nothing: in count mode with a negative
    value a cycle leaves [allTweets] as it is, and the stop condition
    holds at once. *)
Theorem negative_limit_retains_nothing :
  forall (n : Z) (startDate endDate : string) (s : TwitterScraper),
    (n < 0)%Z ->
    config s = popupConfig mode_count (Some n) startDate endDate ->
    (forall page,
        allTweets (this (scrapeTweets parseDate page s)) = allTweets s)
    /\ (forall doc, shouldStopScraping parseDate s doc = true).
Proof.
  intros n sd ed s Hneg Hcfg.
  assert (limitReached (config s) (allTweets s) = true) as Hlim.
  { unfold limitReached. rewrite Hcfg. simpl.
    destruct (Z.eqb_spec n 0); [lia|]. simpl. apply Z.leb_le. lia. }
  split.
  - intros page. rewrite scrapeTweets_this. simpl.
    unfold collect. now apply fold_full.
  - intros doc. unfold shouldStopScraping. now rewrite Hlim.
Qed.

End MoreCycleFacts.

Lemma cycle_covers_page_witness :
  existsb (sameTweet (plainTweet "coffee first" "cy"
                        "2024-03-10T08:30:00.000Z"))
    (allTweets
       (this (scrapeTweets sampleDate (mkPage marchPage [])
                (activeScraper (popupConfig mode_all None "" "") []))))
  = true.
Proof.
  apply (cycle_covers_page sampleDate
           (activeScraper (popupConfig mode_all None "" "") [])
           (mkPage marchPage [])
           (plainTweet "coffee first" "cy" "2024-03-10T08:30:00.000Z")).
  - reflexivity.
  - vm_compute. right. right. left. reflexivity.
  - reflexivity.
Defined.

Lemma zero_limit_is_no_limit_witness :
  shouldStopScraping sampleDate
    (activeScraper (countConfig 0)
       [plainTweet "one" "ann" "2024-01-15T12:00:00.000Z"]) marchPage
  = false.
Proof.
  refine (proj2 (zero_limit_is_no_limit sampleDate (Some 0%Z) "" "" _)
            (activeScraper (countConfig 0)
               [plainTweet "one" "ann" "2024-01-15T12:00:00.000Z"])
            marchPage _); reflexivity.
Defined.

Lemma negative_limit_retains_nothing_witness :
  allTweets (this (scrapeTweets sampleDate (mkPage marchPage [])
                     (activeScraper (countConfig (-1)) [])))
  = [].
Proof.
  refine (proj1 (negative_limit_retains_nothing sampleDate (-1)%Z "" ""
                   (activeScraper (countConfig (-1)) []) _ _)
            (mkPage marchPage [])).
  - lia.
  - reflexivity.
Defined.

(* ------------------------------------------------------------------ *)
(** ** Further properties of the controller *)

Section MoreControllerFacts.

Variable parseDate : string -> JS.Date.

Ltac step_all :=
  repeat (rewrite ?this_bind, ?result_bind, ?effects_bind,
            ?sendStatusUpdate_this, ?sendScrapingComplete_this;
          cbn [this result effects get put emit ret scrollDown fst snd
               allTweets scrollInterval isActive config
               sendStatusUpdate sendScrapingComplete app]).

Lemma stopScraping_effects s :
  effects (stopScraping s)
  = match scrollInterval s with
    | Some h => [ClearInterval h]
    | None => []
    end
    ++ [SendMessage (STATUS_UPDATE "Scraping completed"
                       (List.length (allTweets s)));
        SendMessage (SCRAPING_COMPLETE (allTweets s)
                       (List.length (allTweets s)))].
Proof.
  unfold stopScraping. step_all.
  destruct (scrollInterval s) eqn:E; step_all; reflexivity.
Qed.

Lemma clicks_effects (l : list ShowMore) s :
  effects (fold_right (fun button k => bind (emit (Click button))
                                         (fun _ => k)) (ret tt) l s)
  = map Click l.
Proof.
  revert s. induction l as [|x r IH]; intros s; simpl; [reflexivity|].
  rewrite effects_bind. simpl. now rewrite IH.
Qed.

Lemma expand_effects showMore s :
  effects (expandTruncatedTweets showMore s)
  = let buttons :=
      filter (fun e => sm_isButton e && negb (sm_inQuotedTweet e)) showMore in
    match buttons with
    | [] => []
    | _ :: _ => map Click buttons ++ [Delay 500]
    end.
Proof.
  unfold expandTruncatedTweets.
  destruct (filter _ showMore) as [|b r] eqn:E; [reflexivity|].
  cbn [List.length Nat.ltb Nat.leb].
  rewrite effects_bind, clicks_effects, clicks_this. reflexivity.
Qed.

Lemma collectTweets_effects els s :
  sentMessages (effects (collectTweets parseDate els s))
  = [STATUS_UPDATE
       (match dateRange (config s) with
        | Some _ =>
            ("Found "
             ++ JS.of_nat
                  (List.length
                     (collect parseDate (config s) (allTweets s) els))
             ++ " tweets in date range, scrolling...")%string
        | None =>
            ("Scraped "
             ++ JS.of_nat
                  (List.length
                     (collect parseDate (config s) (allTweets s) els))
             ++ " tweets...")%string
        end)
       (List.length (collect parseDate (config s) (allTweets s) els))].
Proof.
  unfold collectTweets. step_all.
  destruct (dateRange (config s)); reflexivity.
Qed.

Lemma afterScrape_effects doc h s :
  effects (afterScrape parseDate doc h s)
  = if shouldStopScraping parseDate s doc
    then effects (stopScraping s)
    else [ScrollToBottom; SetTimeout 3000].
Proof.
  unfold afterScrape. step_all.
  destruct (shouldStopScraping parseDate s doc); step_all;
    [now rewrite app_nil_r|reflexivity].
Qed.

Lemma afterScrape_this doc h s :
  this (afterScrape parseDate doc h s)
  = if shouldStopScraping parseDate s doc
    then this (stopScraping s)
    else {| allTweets := allTweets s; scrollInterval := Some h;
            isActive := isActive s; config := config s |}.
Proof.
  unfold afterScrape. step_all.
  destruct (shouldStopScraping parseDate s doc); step_all; reflexivity.
Qed.

Lemma afterScrape_result doc h s :
  result (afterScrape parseDate doc h s)
  = if shouldStopScraping parseDate s doc
    then CycleStopped else CycleScheduled.
Proof.
  unfold afterScrape. step_all.
  destruct (shouldStopScraping parseDate s doc); step_all; reflexivity.
Qed.

Lemma sentMessages_app a b :
  sentMessages (a ++ b) = sentMessages a ++ sentMessages b.
Proof. unfold sentMessages. apply flat_map_app. Qed.

Lemma scrollCount_app a b : scrollCount (a ++ b) = scrollCount a + scrollCount b.
Proof. unfold scrollCount. now rewrite filter_app, length_app. Qed.

Lemma expand_quiet showMore s :
  sentMessages (effects (expandTruncatedTweets showMore s)) = []
  /\ scrollCount (effects (expandTruncatedTweets showMore s)) = 0.
Proof.
  rewrite expand_effects. simpl.
  destruct (filter _ showMore) as [|b r]; [now split|].
  rewrite sentMessages_app, scrollCount_app.
  generalize (b :: r). intros l.
  induction l as [|x l IH]; simpl in *; [now split|exact IH].
Qed.

Lemma stopScraping_scrollCount s : scrollCount (effects (stopScraping s)) = 0.
Proof.
  rewrite stopScraping_effects. now destruct (scrollInterval s).
Qed.

Lemma collectTweets_scrollCount els s :
  scrollCount (effects (collectTweets parseDate els s)) = 0.
Proof.
  unfold collectTweets. step_all.
  destruct (dateRange (config s)); reflexivity.
Qed.

(** X8. [scrapeAndScroll] does nothing on a stopped scraper. On an active
    one it runs a cycle and evaluates the stop condition on the object the
    cycle leaves: when it holds the scraper stops (inactive, no timer,
    the tweets of the cycle kept) without scrolling; otherwise it scrolls
    once and stores the handle of the timer for the next invocation. *)
Theorem scrapeAndScroll_outcome :
  forall (page : Page) (doc : list Element) (h : nat) (s : TwitterScraper),
    let r := scrapeAndScroll parseDate page doc h s in
    let s1 := this (scrapeTweets parseDate page s) in
    (isActive s = false -> r = (CycleSkipped, s, []))
    /\ (isActive s = true -> shouldStopScraping parseDate s1 doc = true ->
          result r = CycleStopped
          /\ this r = {| allTweets := allTweets s1; scrollInterval := None;
                         isActive := false; config := config s |}
          /\ scrollCount (effects r) = 0)
    /\ (isActive s = true -> shouldStopScraping parseDate s1 doc = false ->
          result r = CycleScheduled
          /\ this r = {| allTweets := allTweets s1;
                         scrollInterval := Some h;
                         isActive := true; config := config s |}
          /\ scrollCount (effects r) = 1).
Proof.
  intros page doc h s r s1. unfold r, scrapeAndScroll.
  split; [|split].
  - intros Hoff. unfold bind at 1, get. now rewrite Hoff.
  - intros Hon Hstop. step_all. rewrite Hon. cbn [negb]. step_all.
    fold s1. rewrite afterScrape_result, afterScrape_this,
      afterScrape_effects, Hstop, stopScraping_this.
    repeat split.
    + unfold s1. rewrite scrapeTweets_this. reflexivity.
    + rewrite scrollCount_app, stopScraping_scrollCount.
      unfold scrapeTweets. rewrite effects_bind, scrollCount_app.
      rewrite (proj2 (expand_quiet _ _)), collectTweets_scrollCount.
      reflexivity.
  - intros Hon Hgo. step_all. rewrite Hon. cbn [negb]. step_all.
    fold s1. rewrite afterScrape_result, afterScrape_this,
      afterScrape_effects, Hgo.
    repeat split.
    + unfold s1. rewrite scrapeTweets_this. simpl. now rewrite Hon.
    + rewrite scrollCount_app.
      unfold scrapeTweets. rewrite effects_bind, scrollCount_app.
      rewrite (proj2 (expand_quiet _ _)), collectTweets_scrollCount.
      reflexivity.
Qed.

Lemma triple_eta {A} (r : A * TwitterScraper * list Effect) :
  r = (result r, this r, effects r).
Proof. now destruct r as [[a s] o]. Qed.

Lemma getCurrentTweetDates_length doc count :
  List.length (getCurrentTweetDates parseDate doc count) <= List.length doc.
Proof.
  unfold getCurrentTweetDates.
  transitivity (List.length (firstn count doc));
    [|rewrite length_firstn; lia].
  induction (firstn count doc) as [|e r IH]; simpl; [lia|].
  rewrite length_app.
  destruct (q_time e) as [d|]; simpl; [|lia].
  destruct (JS.truthy_opt d); simpl; lia.
Qed.

(** X9. The stop condition of date mode needs three rendered tweets: as
    long as the limit is not reached, [shouldStopScraping] is false on a
    page with fewer than three tweet nodes, whatever their dates. *)
Theorem no_stop_on_short_page :
  forall (s : TwitterScraper) (doc : list Element),
    limitReached (config s) (allTweets s) = false ->
    List.length doc < 3 ->
    shouldStopScraping parseDate s doc = false.
Proof.
  intros s doc Hlim Hlen. unfold shouldStopScraping. rewrite Hlim.
  destruct (scrapeAll (config s)); [reflexivity|].
  destruct (dateRange (config s)); [|reflexivity].
  pose proof (getCurrentTweetDates_length doc 5) as H.
  destruct (Nat.leb_spec 3
              (List.length (getCurrentTweetDates parseDate doc 5)));
    [lia|reflexivity].
Qed.

(** X10. A stopped scraper stays as it is: while [isActive] is false,
    timer firings of [scrapeAndScroll], turns of the seek loop and the
    GET_STATUS and GET_TWEETS commands leave the object unchanged. *)
Theorem stopped_scraper_is_frozen :
  forall (s : TwitterScraper) (evs : list Event),
    isActive s = false ->
    forallb ignoredWhenStopped evs = true ->
    run parseDate s evs = s.
Proof.
  intros s evs Hoff. induction evs as [|ev r IH]; simpl; [reflexivity|].
  intros H. apply andb_true_iff in H. destruct H as [Hev Hr].
  assert (handle parseDate s ev = s) as ->; [|now apply IH].
  destruct ev as [[cfg| | | |]|page doc h|els doc h|sd ed attempts doc];
    try discriminate; cbn [handle].
  - reflexivity.
  - reflexivity.
  - reflexivity.
  - unfold scrapeAndScroll. rewrite this_bind.
    cbn [this result get fst snd]. now rewrite Hoff.
  - rewrite Hoff. now rewrite andb_false_r.
Qed.

Lemma clicked_clicks (l : list ShowMore) :
  clicked (map Click l ++ [Delay 500]) = l.
Proof.
  unfold clicked. induction l as [|b r IH]; simpl; [reflexivity|].
  now rewrite IH.
Qed.

(** X11. [expandTruncatedTweets] clicks the Show-more buttons of main
    tweets and no other node: the nodes it clicks are, in document order,
    the nodes of the list that are button elements outside a quoted
    tweet, each of them once when the list has no node twice; it waits
    500 ms after the clicks exactly when it clicked, performs nothing
    else and leaves the object as it is. *)
Theorem expand_clicks_main_buttons :
  forall (showMore : list ShowMore) (s : TwitterScraper),
    let r := expandTruncatedTweets showMore s in
    this r = s
    /\ clicked (effects r) = filter mainTweetButton showMore
    /\ (forall b,
          In b (clicked (effects r))
          <-> In b showMore
              /\ sm_isButton b = true /\ sm_inQuotedTweet b = false)
    /\ (NoDup showMore -> NoDup (clicked (effects r)))
    /\ effects r
       = match clicked (effects r) with
         | [] => []
         | _ :: _ => map Click (clicked (effects r)) ++ [Delay 500]
         end.
Proof.
  intros showMore s. cbv zeta.
  assert (clicked (effects (expandTruncatedTweets showMore s))
          = filter mainTweetButton showMore) as Hclicked.
  { rewrite expand_effects. cbv zeta.
    fold mainTweetButton.
    change (fun e => sm_isButton e && negb (sm_inQuotedTweet e))
      with mainTweetButton.
    destruct (filter mainTweetButton showMore) as [|b l] eqn:E;
      [reflexivity|].
    apply clicked_clicks. }
  split; [apply expand_this|]. split; [exact Hclicked|].
  rewrite Hclicked. split; [|split].
  - intros b. rewrite filter_In. unfold mainTweetButton.
    rewrite andb_true_iff, negb_true_iff. tauto.
  - intros Hnd. now apply NoDup_filter.
  - rewrite expand_effects. cbv zeta.
    change (fun e => sm_isButton e && negb (sm_inQuotedTweet e))
      with mainTweetButton.
    reflexivity.
Qed.

Lemma seekBody_cases sd ed attempts doc s :
  let r := seekBody parseDate sd ed attempts doc s in
  let sample := getCurrentTweetDates parseDate doc 3 in
  r = (SeekAgain, s, [ScrollToBottom; Delay 2000])
  \/ (r = (SeekAgain, s, []) /\ sample <> [])
  \/ r = (SeekScrape, s,
          [SendMessage (STATUS_UPDATE "Found tweets in range, scraping..."
                          (List.length (allTweets s)))])
  \/ (r = (SeekGiveUp, this (stopScraping s),
           SendMessage (STATUS_UPDATE "No tweets found in date range"
                          (List.length (allTweets s)))
           :: effects (stopScraping s))
      /\ 40 < attempts /\ sample <> []
      /\ forallb (fun date => JS.date_lt date sd) sample = true).
Proof.
  intros r sample. unfold r, seekBody. fold sample.
  destruct sample as [|d l] eqn:E; [now left|].
  cbn [List.length Nat.eqb].
  destruct (existsb _ (d :: l)); [right; right; now left|].
  destruct (forallb (fun date => JS.date_gt date ed) (d :: l));
    [now left|].
  destruct (forallb (fun date => JS.date_lt date sd) (d :: l)) eqn:Hb;
    [|right; left; split; [reflexivity|discriminate]].
  destruct (Nat.ltb_spec 40 attempts); [|now left].
  right; right; right. repeat split; try assumption; try discriminate.
  rewrite (triple_eta (bind _ _ s)). step_all.
  rewrite app_nil_r. reflexivity.
Qed.

Lemma seekLoop_unfold remaining sd ed pages s step s' out :
  isActive s = true ->
  seekBody parseDate sd ed (maxAttempts - S remaining)
    (pages (maxAttempts - S remaining)) s = (step, s', out) ->
  seekLoop parseDate (S remaining) sd ed pages s
  = match step with
    | SeekAgain =>
        let r := seekLoop parseDate remaining sd ed pages s' in
        (result r, this r, out ++ effects r)
    | SeekScrape => (SeekCollecting, s', out ++ [])
    | SeekGiveUp => (SeekStopped, s', out ++ [])
    end.
Proof.
  intros Hact Hbody.
  cbn [seekLoop]. unfold bind at 1, get. rewrite Hact.
  unfold bind at 1. rewrite Hbody.
  destruct step; try reflexivity.
  now destruct (seekLoop parseDate remaining sd ed pages s') as [[r u] o].
Qed.

Lemma seekLoop_inactive remaining sd ed pages s :
  isActive s = false ->
  seekLoop parseDate (S remaining) sd ed pages s = (SeekInactive, s, []).
Proof.
  intros Hoff. cbn [seekLoop]. unfold bind at 1, get. now rewrite Hoff.
Qed.

(** What the seek loop leaves, by its result. *)
Lemma seekLoop_summary remaining sd ed pages : forall s,
  let r := seekLoop parseDate remaining sd ed pages s in
  scrollCount (effects r) <= remaining
  /\ Forall (reportsTweets (allTweets s)) (sentMessages (effects r))
  /\ match result r with
     | SeekStopped =>
         this r = this (stopScraping s)
         /\ exists k, 40 < k < maxAttempts
                      /\ maxAttempts - remaining <= k
                      /\ getCurrentTweetDates parseDate (pages k) 3 <> []
                      /\ forallb (fun date => JS.date_lt date sd)
                           (getCurrentTweetDates parseDate (pages k) 3)
                         = true
     | _ => this r = s
     end.
Proof.
  induction remaining as [|n IH]; intros s r.
  - unfold r. simpl. repeat split; [reflexivity|repeat constructor].
  - destruct (isActive s) eqn:Hact;
      [|unfold r; rewrite (seekLoop_inactive n sd ed pages s Hact);
        cbn [result this effects fst snd];
        repeat split; [unfold scrollCount; simpl; lia|constructor]].
    pose proof (seekBody_cases sd ed (maxAttempts - S n)
                  (pages (maxAttempts - S n)) s) as Hc.
    cbv zeta in Hc.
    specialize (IH s). cbv zeta in IH. destruct IH as (H1 & H2 & H3).
    destruct Hc as [Hb|[[Hb _]|[Hb|(Hb & Hk & Hne & Hall)]]];
      unfold r; rewrite (seekLoop_unfold n sd ed pages s _ _ _ Hact Hb);
      cbv zeta; cbn [result this effects fst snd].
    + split; [|split].
      * rewrite scrollCount_app.
        change (scrollCount [ScrollToBottom; Delay 2000]) with 1. lia.
      * rewrite sentMessages_app. exact H2.
      * destruct (result (seekLoop parseDate n sd ed pages s));
          try exact H3.
        destruct H3 as (H3 & k & Hk1 & Hk2 & Hk3).
        split; [exact H3|]. exists k. repeat split; try tauto; lia.
    + cbn [app]. split; [lia|]. split; [exact H2|].
      destruct (result (seekLoop parseDate n sd ed pages s));
        try exact H3.
      destruct H3 as (H3 & k & Hk1 & Hk2 & Hk3).
      split; [exact H3|]. exists k. repeat split; try tauto; lia.
    + repeat split; [unfold scrollCount; simpl; lia|].
      repeat constructor.
    + rewrite app_nil_r.
      split; [|split].
      * change (?a :: ?l) with ([a] ++ l).
        rewrite scrollCount_app, stopScraping_scrollCount.
        unfold scrollCount. simpl. lia.
      * change (?a :: ?l) with ([a] ++ l).
        rewrite sentMessages_app, stopScraping_effects, sentMessages_app.
        apply Forall_app. split; [repeat constructor|].
        apply Forall_app. split.
        -- destruct (scrollInterval s); constructor.
        -- repeat constructor.
      * split; [reflexivity|].
        exists (maxAttempts - S n). unfold maxAttempts in *.
        repeat split; try assumption; lia.
Qed.

Lemma scrollToDateRange_loop pages s range :
  dateRange (config s) = Some range ->
  let r := seekLoop parseDate maxAttempts (parseDate (start range))
             (parseDate (end_ range)) pages s in
  scrollToDateRange parseDate pages s
  = (result r, this r,
     SendMessage (STATUS_UPDATE "Finding tweets in date range..."
                    (List.length (allTweets s)))
     :: effects r).
Proof.
  intros Hr r. unfold scrollToDateRange.
  cbv beta iota zeta delta [bind get sendStatusUpdate emit].
  rewrite Hr. fold r. now destruct r as [[e s'] o].
Qed.

(** X12. Seeking is bounded and never collects: [scrollToDateRange]
    scrolls at most 50 times, leaves [allTweets] and the configuration as
    they are, and changes the object only when it gives up, in which case
    the scraper is stopped. *)
Theorem seek_is_bounded :
  forall (pages : nat -> list Element) (s : TwitterScraper),
    let r := scrollToDateRange parseDate pages s in
    scrollCount (effects r) <= maxAttempts
    /\ allTweets (this r) = allTweets s
    /\ config (this r) = config s
    /\ (result r = SeekStopped ->
        isActive (this r) = false /\ scrollInterval (this r) = None)
    /\ (result r <> SeekStopped -> this r = s).
Proof.
  intros pages s r. unfold r, scrollToDateRange.
  destruct (dateRange (config s)) as [range|] eqn:Hr.
  - fold (scrollToDateRange parseDate pages s).
    rewrite (scrollToDateRange_loop pages s range Hr).
    cbv zeta. cbn [result this effects fst snd].
    destruct (seekLoop_summary maxAttempts (parseDate (start range))
                (parseDate (end_ range)) pages s) as (H1 & _ & H3).
    cbv zeta in H1, H3.
    split; [exact H1|].
    destruct (result (seekLoop parseDate maxAttempts _ _ pages s));
      try (rewrite H3; repeat split; congruence).
    destruct H3 as [-> _]. rewrite stopScraping_this. simpl.
    repeat split; congruence.
  - unfold bind, get. rewrite Hr. simpl.
    repeat split; try reflexivity; try discriminate.
    unfold scrollCount, maxAttempts. simpl. lia.
Qed.

(** X13. The seek loop gives up only late: when [scrollToDateRange] ends
    by stopping the scraper, more than 40 attempts had been made and the
    page read at the last one had a non-empty sample entirely before the
    start date. *)
Theorem seek_gives_up_late :
  forall (pages : nat -> list Element) (s : TwitterScraper)
         (range : DateRange),
    dateRange (config s) = Some range ->
    result (scrollToDateRange parseDate pages s) = SeekStopped ->
    exists k,
      40 < k < maxAttempts
      /\ getCurrentTweetDates parseDate (pages k) 3 <> []
      /\ forallb (fun date => JS.date_lt date (parseDate (start range)))
           (getCurrentTweetDates parseDate (pages k) 3) = true.
Proof.
  intros pages s range Hr.
  rewrite (scrollToDateRange_loop pages s range Hr).
  cbv zeta. cbn [result fst].
  destruct (seekLoop_summary maxAttempts (parseDate (start range))
              (parseDate (end_ range)) pages s) as (_ & _ & H3).
  cbv zeta in H3. intros Hres. rewrite Hres in H3.
  destruct H3 as (_ & k & Hk & _ & Hne & Hall). eauto.
Qed.

Lemma seekBody_mixed sd ed attempts doc s :
  mixedSample sd ed (getCurrentTweetDates parseDate doc 3) = true ->
  seekBody parseDate sd ed attempts doc s = (SeekAgain, s, []).
Proof.
  unfold mixedSample, seekBody. intros H.
  repeat (apply andb_true_iff in H; destruct H as [H ?]).
  repeat match goal with
         | H : negb ?b = true |- _ =>
             apply negb_true_iff in H; rewrite H
         end.
  reflexivity.
Qed.

Lemma seekLoop_mixed sd ed pages s remaining :
  isActive s = true ->
  (forall k, mixedSample sd ed (getCurrentTweetDates parseDate (pages k) 3)
             = true) ->
  seekLoop parseDate remaining sd ed pages s
  = (SeekCollecting, s,
     [SendMessage (STATUS_UPDATE "Starting scraping from current position"
                     (List.length (allTweets s)))]).
Proof.
  intros Hact Hmix. induction remaining as [|n IH]; [reflexivity|].
  rewrite (seekLoop_unfold n sd ed pages s _ _ _ Hact
             (seekBody_mixed sd ed _ _ s (Hmix _))).
  cbv zeta. now rewrite IH.
Qed.

(** X14. A mixed page exhausts the seek loop without a scroll: when the
    scraper is active and every sample is non-empty, has no date in the
    range, and is neither entirely after the range nor entirely before it
    (a pinned old tweet above recent ones), [scrollToDateRange] does not
    scroll or wait and ends with a call of [scrapeAndScroll]. *)
Theorem mixed_page_skips_seek :
  forall (pages : nat -> list Element) (s : TwitterScraper)
         (range : DateRange),
    isActive s = true ->
    dateRange (config s) = Some range ->
    (forall k, mixedSample (parseDate (start range)) (parseDate (end_ range))
                 (getCurrentTweetDates parseDate (pages k) 3) = true) ->
    scrollToDateRange parseDate pages s
    = (SeekCollecting, s,
       [SendMessage (STATUS_UPDATE "Finding tweets in date range..."
                       (List.length (allTweets s)));
        SendMessage (STATUS_UPDATE "Starting scraping from current position"
                       (List.length (allTweets s)))]).
Proof.
  intros pages s range Hact Hr Hmix.
  rewrite (scrollToDateRange_loop pages s range Hr). cbv zeta.
  now rewrite (seekLoop_mixed _ _ pages s maxAttempts Hact Hmix).
Qed.

Lemma seekBody_tooRecent sd ed attempts doc s :
  tooRecentSample sd ed (getCurrentTweetDates parseDate doc 3) = true ->
  seekBody parseDate sd ed attempts doc s
  = (SeekAgain, s, [ScrollToBottom; Delay 2000]).
Proof.
  unfold tooRecentSample, seekBody. intros H.
  destruct (List.length _ =? 0); [reflexivity|].
  simpl in H. apply andb_true_iff in H. destruct H as [H1 H2].
  apply negb_true_iff in H1. now rewrite H1, H2.
Qed.

Lemma seekLoop_tooRecent sd ed pages s remaining :
  isActive s = true ->
  (forall k, tooRecentSample sd ed
               (getCurrentTweetDates parseDate (pages k) 3) = true) ->
  let r := seekLoop parseDate remaining sd ed pages s in
  result r = SeekCollecting /\ this r = s
  /\ scrollCount (effects r) = remaining.
Proof.
  intros Hact Hrec. induction remaining as [|n IH]; [now repeat split|].
  cbv zeta in *.
  rewrite (seekLoop_unfold n sd ed pages s _ _ _ Hact
             (seekBody_tooRecent sd ed _ _ s (Hrec _))).
  cbv zeta. cbn [result this effects fst snd].
  destruct IH as (H1 & H2 & H3). repeat split; try assumption.
  rewrite scrollCount_app, H3. reflexivity.
Qed.

(** X15. Content that stays too recent exhausts the seek loop: when the
    scraper is active and every sample is empty or entirely after the end
    of the range, [scrollToDateRange] scrolls exactly 50 times, leaves the
    object as it is and ends with a call of [scrapeAndScroll]. *)
Theorem recent_pages_exhaust_seek :
  forall (pages : nat -> list Element) (s : TwitterScraper)
         (range : DateRange),
    isActive s = true ->
    dateRange (config s) = Some range ->
    (forall k, tooRecentSample (parseDate (start range))
                 (parseDate (end_ range))
                 (getCurrentTweetDates parseDate (pages k) 3) = true) ->
    let r := scrollToDateRange parseDate pages s in
    result r = SeekCollecting /\ this r = s
    /\ scrollCount (effects r) = maxAttempts.
Proof.
  intros pages s range Hact Hr Hrec.
  rewrite (scrollToDateRange_loop pages s range Hr). cbv zeta.
  cbn [result this effects fst snd].
  destruct (seekLoop_tooRecent _ _ pages s maxAttempts Hact Hrec)
    as (H1 & H2 & H3).
  repeat split; assumption.
Qed.

End MoreControllerFacts.

Lemma no_stop_on_short_page_witness :
  shouldStopScraping sampleDate (activeScraper januaryConfig [])
    [ tweetNode "happy holidays" "bob" "2023-12-25T18:00:00.000Z" false ]
  = false.
Proof.
  apply (no_stop_on_short_page sampleDate (activeScraper januaryConfig []));
    [reflexivity|simpl; lia].
Defined.

Lemma stopped_scraper_is_frozen_witness :
  run sampleDate newScraper
    [Invoked (mkPage marchPage []) marchPage 1; Received GET_STATUS]
  = newScraper.
Proof.
  apply (stopped_scraper_is_frozen sampleDate newScraper); reflexivity.
Defined.

Lemma scrapeAndScroll_outcome_witness :
  scrapeAndScroll sampleDate (mkPage marchPage []) marchPage 1 newScraper
  = (CycleSkipped, newScraper, [])
  /\ result (scrapeAndScroll sampleDate (mkPage marchPage []) marchPage 1
               (activeScraper (countConfig 2) []))
     = CycleStopped
  /\ result (scrapeAndScroll sampleDate (mkPage marchPage []) marchPage 1
               (activeScraper (countConfig 5) []))
     = CycleScheduled.
Proof.
  split; [|split].
  - apply (proj1 (scrapeAndScroll_outcome sampleDate (mkPage marchPage [])
                    marchPage 1 newScraper)).
    reflexivity.
  - apply (proj1 (proj2 (scrapeAndScroll_outcome sampleDate
                           (mkPage marchPage []) marchPage 1
                           (activeScraper (countConfig 2) [])))).
    + reflexivity.
    + vm_compute. reflexivity.
  - apply (proj2 (proj2 (scrapeAndScroll_outcome sampleDate
                           (mkPage marchPage []) marchPage 1
                           (activeScraper (countConfig 5) [])))).
    + reflexivity.
    + vm_compute. reflexivity.
Defined.

Lemma expand_clicks_main_buttons_witness :
  NoDup (clicked (effects (expandTruncatedTweets showMoreNodes newScraper)))
  /\ clicked (effects (expandTruncatedTweets showMoreNodes newScraper))
     = [ {| sm_node := 1; sm_isButton := true; sm_inQuotedTweet := false |} ].
Proof.
  split.
  - apply (proj1 (proj2 (proj2 (proj2
             (expand_clicks_main_buttons showMoreNodes newScraper))))).
    unfold showMoreNodes.
    repeat (constructor; [simpl; intuition discriminate|]).
    constructor.
  - apply (proj1 (proj2
             (expand_clicks_main_buttons showMoreNodes newScraper))).
Defined.

Lemma seek_is_bounded_witness :
  this (scrollToDateRange sampleDate (fun _ => marchPage)
          (activeScraper januaryConfig []))
  = activeScraper januaryConfig [].
Proof.
  apply (proj2 (proj2 (proj2 (proj2
           (seek_is_bounded sampleDate (fun _ => marchPage)
              (activeScraper januaryConfig [])))))).
  vm_compute. discriminate.
Defined.

Lemma mixed_page_skips_seek_witness :
  scrollToDateRange sampleDate (fun _ => pinnedPage)
    (activeScraper januaryConfig [])
  = (SeekCollecting, activeScraper januaryConfig [],
     [SendMessage (STATUS_UPDATE "Finding tweets in date range..." 0);
      SendMessage
        (STATUS_UPDATE "Starting scraping from current position" 0)]).
Proof.
  apply (mixed_page_skips_seek sampleDate (fun _ => pinnedPage)
           (activeScraper januaryConfig [])
           (mkDateRange "2024-01-01" "2024-01-31")).
  - reflexivity.
  - reflexivity.
  - intros k. vm_compute. reflexivity.
Defined.

Lemma recent_pages_exhaust_seek_witness :
  result (scrollToDateRange sampleDate (fun _ => marchPage)
            (activeScraper januaryConfig [])) = SeekCollecting
  /\ this (scrollToDateRange sampleDate (fun _ => marchPage)
             (activeScraper januaryConfig []))
     = activeScraper januaryConfig []
  /\ scrollCount (effects (scrollToDateRange sampleDate (fun _ => marchPage)
                             (activeScraper januaryConfig [])))
     = maxAttempts.
Proof.
  apply (recent_pages_exhaust_seek sampleDate (fun _ => marchPage)
           (activeScraper januaryConfig [])
           (mkDateRange "2024-01-01" "2024-01-31")).
  - reflexivity.
  - reflexivity.
  - intros k. vm_compute. reflexivity.
Defined.

Lemma seek_gives_up_late_witness :
  exists k,
    40 < k < maxAttempts
    /\ getCurrentTweetDates sampleDate
         [tweetNode "happy holidays" "bob" "2023-12-25T18:00:00.000Z" false]
         3 <> []
    /\ forallb (fun date => JS.date_lt date (sampleDate "2024-01-01"))
         (getCurrentTweetDates sampleDate
            [tweetNode "happy holidays" "bob" "2023-12-25T18:00:00.000Z"
               false] 3) = true.
Proof.
  apply (seek_gives_up_late sampleDate
           (fun _ => [tweetNode "happy holidays" "bob"
                        "2023-12-25T18:00:00.000Z" false])
           (activeScraper januaryConfig [])
           (mkDateRange "2024-01-01" "2024-01-31")).
  - reflexivity.
  - vm_compute. reflexivity.
Defined.

(* ------------------------------------------------------------------ *)
(** ** What the scraper reports, and what the popup shows *)

Section Reports.

Variable parseDate : string -> JS.Date.

Ltac step_all :=
  repeat (rewrite ?this_bind, ?result_bind, ?effects_bind,
            ?sendStatusUpdate_this, ?sendScrapingComplete_this;
          cbn [this result effects get put emit ret scrollDown fst snd
               allTweets scrollInterval isActive config
               sendStatusUpdate sendScrapingComplete app]).

Lemma stopScraping_reports s :
  Forall (reportsTweets (allTweets s))
    (sentMessages (effects (stopScraping s))).
Proof.
  rewrite stopScraping_effects, sentMessages_app.
  apply Forall_app. split.
  - destruct (scrollInterval s); constructor.
  - repeat constructor.
Qed.

Lemma afterScrape_reports doc h s :
  Forall (reportsTweets (allTweets s))
    (sentMessages (effects (afterScrape parseDate doc h s))).
Proof.
  rewrite afterScrape_effects.
  destruct (shouldStopScraping parseDate s doc);
    [apply stopScraping_reports|constructor].
Qed.

Lemma afterScrape_allTweets doc h s :
  allTweets (this (afterScrape parseDate doc h s)) = allTweets s.
Proof. apply (afterScrape_sameData parseDate doc h s). Qed.

Lemma resumeScrape_reports els doc h s :
  let r := resumeScrape parseDate els doc h s in
  Forall (reportsTweets (allTweets (this r))) (sentMessages (effects r)).
Proof.
  unfold resumeScrape. cbv zeta.
  rewrite this_bind, effects_bind, sentMessages_app, afterScrape_allTweets.
  apply Forall_app. split; [|apply afterScrape_reports].
  rewrite collectTweets_effects, collectTweets_this. simpl.
  repeat constructor.
Qed.

Lemma scrapeAndScroll_reports page doc h s :
  let r := scrapeAndScroll parseDate page doc h s in
  Forall (reportsTweets (allTweets (this r))) (sentMessages (effects r)).
Proof.
  unfold scrapeAndScroll. cbv zeta.
  rewrite this_bind, effects_bind.
  cbn [this result effects get fst snd app].
  destruct (isActive s); cbn [negb]; [|constructor].
  rewrite this_bind, effects_bind, sentMessages_app, afterScrape_allTweets.
  apply Forall_app. split; [|apply afterScrape_reports].
  unfold scrapeTweets.
  rewrite this_bind, effects_bind, sentMessages_app, expand_this.
  rewrite (proj1 (expand_quiet _ _)).
  rewrite collectTweets_effects, collectTweets_this. simpl.
  repeat constructor.
Qed.

Lemma seekBody_reports sd ed attempts doc s :
  let r := seekBody parseDate sd ed attempts doc s in
  Forall (reportsTweets (allTweets (this r))) (sentMessages (effects r)).
Proof.
  destruct (seekBody_cases parseDate sd ed attempts doc s)
    as [H|[[H _]|[H|[H _]]]]; cbv zeta in *; rewrite H;
    cbn [this effects fst snd].
  - constructor.
  - constructor.
  - repeat constructor.
  - rewrite stopScraping_this. cbn [allTweets].
    change (?a :: ?l) with ([a] ++ l). rewrite sentMessages_app.
    apply Forall_app.
    split; [repeat constructor|apply stopScraping_reports].
Qed.

Lemma onMessage_reports message s :
  let r := onMessage message s in
  Forall (reportsTweets (allTweets (this r))) (sentMessages (effects r)).
Proof.
  destruct message as [cfg| | | |]; cbv zeta; unfold onMessage.
  - step_all. rewrite sentMessages_app. cbn [sentMessages flat_map].
    rewrite app_nil_r, startScraping_this.
    unfold startScraping. step_all.
    destruct (isActive s); step_all; [constructor|].
    destruct (dateRange cfg); repeat constructor.
  - step_all. rewrite sentMessages_app. cbn [sentMessages flat_map].
    rewrite app_nil_r, stopScraping_this. cbn [allTweets].
    apply stopScraping_reports.
  - step_all. constructor.
  - step_all. constructor.
  - constructor.
Qed.

Lemma messages_report_lemma ev s :
  Forall (reportsTweets (allTweets (handle parseDate s ev)))
    (sentMessages (effects (react parseDate ev s))).
Proof.
  assert (forall (A : Type) (m : M A) u,
             this (bind m (fun _ => ret tt) u) = this (m u)
             /\ effects (bind m (fun _ => ret tt) u) = effects (m u))
    as Hunit.
  { intros A m u. rewrite this_bind, effects_bind. simpl.
    now rewrite app_nil_r. }
  destruct ev as [message|page doc h|els doc h|sd ed attempts doc];
    cbn [react handle].
  - destruct (Hunit _ (onMessage message) s) as [_ ->].
    apply onMessage_reports.
  - destruct (Hunit _ (scrapeAndScroll parseDate page doc h) s) as [_ ->].
    apply scrapeAndScroll_reports.
  - destruct (Hunit _ (resumeScrape parseDate els doc h) s) as [_ ->].
    apply resumeScrape_reports.
  - rewrite effects_bind.
    cbn [this result effects get fst snd app].
    destruct ((attempts <? maxAttempts) && isActive s).
    + destruct (Hunit _ (seekBody parseDate sd ed attempts doc) s)
        as [_ ->].
      apply seekBody_reports.
    + constructor.
Qed.

Lemma react_handle ev s : this (react parseDate ev s) = handle parseDate s ev.
Proof.
  destruct ev as [message|page doc h|els doc h|sd ed attempts doc];
    cbn [react handle]; rewrite this_bind; try reflexivity.
  cbn [this result get fst snd].
  destruct ((attempts <? maxAttempts) && isActive s);
    [now rewrite this_bind|reflexivity].
Qed.

(** X16. Every message of the scraper reports the tweets it holds: after
    any event, each STATUS_UPDATE and SCRAPING_COMPLETE sent while the
    event was handled carries the number of tweets the object holds when
    the handling ends, and a SCRAPING_COMPLETE carries exactly these
    tweets. *)
Theorem messages_report_tweets :
  forall (ev : Event) (s : TwitterScraper),
    this (react parseDate ev s) = handle parseDate s ev
    /\ Forall (reportsTweets (allTweets (handle parseDate s ev)))
         (sentMessages (effects (react parseDate ev s))).
Proof.
  intros ev s. split; [apply react_handle|apply messages_report_lemma].
Qed.

Lemma popup_count msgs all : forall p,
  Forall (reportsTweets all) msgs -> msgs <> [] ->
  Popup.tweetCount (fold_left Popup.onRuntimeMessage msgs p)
  = List.length all.
Proof.
  induction msgs as [|m r IH]; intros p Hall Hne; [contradiction|].
  simpl. inversion Hall as [|? ? Hm Hr]; subst.
  destruct r as [|m' r'].
  - simpl. destruct m as [t n|tw n]; simpl in *; [exact Hm|tauto].
  - apply IH; [exact Hr|discriminate].
Qed.

Lemma popup_complete msgs all : forall p,
  Forall (reportsTweets all) msgs ->
  (Popup.scrapedTweets p = all /\ Popup.isActive p = false)
  \/ existsb isComplete msgs = true ->
  let p' := fold_left Popup.onRuntimeMessage msgs p in
  Popup.scrapedTweets p' = all /\ Popup.isActive p' = false.
Proof.
  induction msgs as [|m r IH]; intros p Hall Hor; simpl in *.
  - destruct Hor as [H|H]; [exact H|discriminate].
  - inversion Hall as [|? ? Hm Hr]; subst.
    apply IH; [exact Hr|].
    destruct m as [t n|tw n]; simpl in *.
    + destruct Hor as [H|H]; [left; exact H|right; exact H].
    + left. split; [tauto|reflexivity].
Qed.

(** X17. The popup shows what the scraper holds: when the popup has
    received the messages of an event of the scraper (and there was one),
    its tweet count is the number of tweets the scraper holds; when a
    SCRAPING_COMPLETE was among them, its tweets are the scraper's tweets
    and it shows the run as finished. *)
Theorem popup_follows_scraper :
  forall (ev : Event) (s : TwitterScraper) (p : Popup.State),
    let msgs := sentMessages (effects (react parseDate ev s)) in
    let p' := fold_left Popup.onRuntimeMessage msgs p in
    (msgs <> [] ->
       Popup.tweetCount p'
       = List.length (allTweets (handle parseDate s ev)))
    /\ (existsb isComplete msgs = true ->
          Popup.scrapedTweets p' = allTweets (handle parseDate s ev)
          /\ Popup.isActive p' = false).
Proof.
  intros ev s p msgs p'.
  pose proof (messages_report_lemma ev s) as Hrep.
  split.
  - intros Hne. now apply popup_count.
  - intros Hc. apply popup_complete; [exact Hrep|now right].
Qed.

End Reports.

Lemma popup_follows_scraper_witness :
  Popup.scrapedTweets
    (fold_left Popup.onRuntimeMessage
       (sentMessages
          (effects (react sampleDate (Received STOP_SCRAPING)
                      (activeScraper (countConfig 5)
                         [plainTweet "one" "ann"
                            "2024-01-15T12:00:00.000Z"]))))
       Popup.initial)
  = allTweets
      (handle sampleDate
         (activeScraper (countConfig 5)
            [plainTweet "one" "ann" "2024-01-15T12:00:00.000Z"])
         (Received STOP_SCRAPING))
  /\ Popup.isActive
       (fold_left Popup.onRuntimeMessage
          (sentMessages
             (effects (react sampleDate (Received STOP_SCRAPING)
                         (activeScraper (countConfig 5)
                            [plainTweet "one" "ann"
                               "2024-01-15T12:00:00.000Z"]))))
          Popup.initial)
     = false.
Proof.
  apply (proj2 (popup_follows_scraper sampleDate (Received STOP_SCRAPING)
                  (activeScraper (countConfig 5)
                     [plainTweet "one" "ann" "2024-01-15T12:00:00.000Z"])
                  Popup.initial)).
  reflexivity.
Defined.

(* ------------------------------------------------------------------ *)
(** ** Further properties of field extraction and of the fingerprint *)

Lemma absoluteUrl_http href : JS.startsWith (absoluteUrl href) "http" = true.
Proof.
  unfold absoluteUrl.
  destruct (JS.startsWith href "http") eqn:E; [exact E|reflexivity].
Qed.

Lemma linkUrls_http hrefs u :
  In u (linkUrls hrefs) -> JS.startsWith u "http" = true.
Proof.
  unfold linkUrls. rewrite in_flat_map. intros (h & _ & Hu).
  destruct (JS.truthy_opt h); [|destruct Hu].
  destruct Hu as [<-|[]]. apply absoluteUrl_http.
Qed.

Lemma mediaSource_host m u :
  In u (mediaSource m) -> JS.includes u "pbs.twimg.com" = true.
Proof.
  unfold mediaSource.
  destruct (if JS.truthy_opt (fst m) then fst m else snd m) as [src|];
    [|intros []].
  destruct (JS.truthy src); simpl; [|intros []].
  destruct (JS.includes src "pbs.twimg.com") eqn:E; [|intros []].
  intros [<-|[]]. exact E.
Qed.

(** X18. What an extracted record looks like: its text is the trimmed
    content of the chosen text node, has at least two characters and is
    not a UI token; its timestamp and author are always defined (empty
    when the node has none); and it has no thread field. *)
Theorem extracted_record_shape :
  forall (e : Element) (t : ScrapedTweet),
    extractTweetData e = Some t ->
    (exists content,
        tweetTextElement e = Some content /\ text t = JS.trim content)
    /\ 2 <= String.length (text t)
    /\ uiToken (text t) = false
    /\ timestamp t
       = Some (JS.or_empty (match q_time e with
                            | Some datetime => datetime
                            | None => None
                            end))
    /\ author t
       = Some (match q_userName e with
               | Some content => JS.trim content
               | None => ""
               end)
    /\ noThreadFields t.
Proof.
  intros e t. unfold extractTweetData.
  destruct (tweetTextElement e) as [content|]; [|discriminate].
  destruct (String.length (JS.trim content) <? 2) eqn:Hlen;
    [discriminate|].
  destruct (uiToken (JS.trim content)) eqn:Hui; [discriminate|].
  cbn [orb]. intros [= <-]. cbn [text timestamp author].
  apply Nat.ltb_ge in Hlen.
  repeat split; eauto.
Qed.

Lemma extracted_record_shape_witness :
  2 <= String.length (text (plainTweet "coffee first" "cy"
                              "2024-03-10T08:30:00.000Z")).
Proof.
  apply (extracted_record_shape
           (tweetNode "coffee first" "cy" "2024-03-10T08:30:00.000Z" false)
           (plainTweet "coffee first" "cy" "2024-03-10T08:30:00.000Z")).
  reflexivity.
Defined.

(** X19. The links of an extracted record: a quoted-tweet URL, when
    present, starts with http; a media list, when present, is not empty
    and each of its entries starts with http or names the media host
    pbs.twimg.com. *)
Theorem extracted_urls_absolute :
  forall (e : Element) (t : ScrapedTweet),
    extractTweetData e = Some t ->
    (forall u, quotedTweetUrl t = Some u -> JS.startsWith u "http" = true)
    /\ (forall urls,
          mediaUrls t = Some urls ->
          urls <> []
          /\ forall u, In u urls ->
                JS.startsWith u "http" = true
                \/ JS.includes u "pbs.twimg.com" = true).
Proof.
  intros e t. unfold extractTweetData.
  destruct (tweetTextElement e) as [content|]; [|discriminate].
  destruct (_ || _); [discriminate|].
  intros [= <-]. cbn [quotedTweetUrl mediaUrls]. split.
  - intros u.
    destruct (q_quotedLink e) as [href|]; [|discriminate].
    destruct (JS.truthy_opt href); [|discriminate].
    destruct (JS.truthy (absoluteUrl (JS.or_empty href))); [|discriminate].
    intros [= <-]. apply absoluteUrl_http.
  - intros urls.
    destruct (Nat.ltb_spec 0
                (List.length
                   (linkUrls (q_photoLinks e) ++ linkUrls (q_videoLinks e)
                    ++ flat_map mediaSource (q_media e)))) as [Hpos|];
      [|discriminate].
    intros [= <-]. split.
    + intros Hnil. rewrite Hnil in Hpos. simpl in Hpos. lia.
    + intros u Hu. apply in_app_or in Hu.
      destruct Hu as [Hu|Hu]; [left; eapply linkUrls_http; eauto|].
      apply in_app_or in Hu.
      destruct Hu as [Hu|Hu]; [left; eapply linkUrls_http; eauto|].
      right. apply in_flat_map in Hu. destruct Hu as (m & _ & Hu).
      eapply mediaSource_host; eauto.
Qed.

Lemma extracted_urls_absolute_witness :
  JS.startsWith "https://x.com/u/status/1" "http" = true.
Proof.
  apply (proj1 (extracted_urls_absolute
                  {| q_tweetText := None;
                     q_lang := ["short"; "a long enough language text"];
                     q_divs := []; q_time := None; q_userName := None;
                     q_quotedLink := Some (Some "/u/status/1");
                     q_photoLinks := []; q_videoLinks := []; q_media := [];
                     q_threadConnector := false;
                     q_previousThreadConnector := false |}
                  {| text := "a long enough language text";
                     timestamp := Some ""; author := Some "";
                     isThread := None; threadTweets := None;
                     threadPosition := None;
                     quotedTweetUrl := Some "https://x.com/u/status/1";
                     mediaUrls := None |} eq_refl)
           "https://x.com/u/status/1").
  reflexivity.
Defined.

(** X20. The text marker decides: when the node has a tweetText element,
    the fallbacks are not consulted; the node is rejected exactly when the
    trimmed content of that element has fewer than two characters or is a
    UI token, whatever the [lang] and div descendants hold. *)
Theorem text_marker_decides :
  forall (e : Element) (content : string),
    q_tweetText e = Some content ->
    (extractTweetData e = None
     <-> String.length (JS.trim content) < 2
         \/ uiToken (JS.trim content) = true)
    /\ (forall t, extractTweetData e = Some t -> text t = JS.trim content).
Proof.
  intros e content Hq.
  unfold extractTweetData, tweetTextElement. rewrite Hq.
  destruct (Nat.ltb_spec (String.length (JS.trim content)) 2) as [Hlt|Hge];
    cbn [orb].
  - split; [split; [now left|reflexivity]|discriminate].
  - destruct (uiToken (JS.trim content)).
    + split; [split; [now right|reflexivity]|discriminate].
    + split; [split; [discriminate|intros [H|H]; [lia|discriminate]]|].
      now intros t [= <-].
Qed.

Lemma text_marker_decides_witness :
  extractTweetData
    {| q_tweetText := Some "7";
       q_lang := ["a long enough language text"];
       q_divs := []; q_time := None; q_userName := None;
       q_quotedLink := None; q_photoLinks := []; q_videoLinks := [];
       q_media := []; q_threadConnector := false;
       q_previousThreadConnector := false |}
  = None.
Proof.
  apply (proj1 (text_marker_decides
                  {| q_tweetText := Some "7";
                     q_lang := ["a long enough language text"];
                     q_divs := []; q_time := None; q_userName := None;
                     q_quotedLink := None; q_photoLinks := [];
                     q_videoLinks := []; q_media := [];
                     q_threadConnector := false;
                     q_previousThreadConnector := false |} "7" eq_refl)).
  left. simpl. lia.
Defined.

(** X21. [getLatestTweets] returns the first records of the page: at most
    [count] of them, and they begin the list of all extracted records. *)
Theorem latest_tweets_prefix :
  forall (doc : list Element) (count : nat),
    List.length (getLatestTweets doc count) <= count
    /\ exists rest, extracted doc = getLatestTweets doc count ++ rest.
Proof.
  intros doc count. split.
  - unfold getLatestTweets.
    transitivity (List.length (firstn count doc));
      [|rewrite length_firstn; lia].
    induction (firstn count doc) as [|e r IH]; simpl; [lia|].
    rewrite length_app. destruct (extractTweetData e); simpl; lia.
  - exists (extracted (skipn count doc)).
    unfold getLatestTweets. fold (extracted (firstn count doc)).
    unfold extracted. rewrite <- flat_map_app.
    now rewrite firstn_skipn.
Qed.

Lemma substring0_length n : forall s,
  n <= String.length s -> String.length (substring 0 n s) = n.
Proof.
  induction n as [|n IH]; intros s H.
  - now destruct s.
  - destruct s as [|c r]; simpl in *; [lia|].
    rewrite IH by lia. reflexivity.
Qed.

Lemma append_same_length a : forall b c d,
  String.length a = String.length b ->
  (a ++ c)%string = (b ++ d)%string -> a = b /\ c = d.
Proof.
  induction a as [|x a IH]; intros [|y b] c d Hlen H; simpl in *;
    try discriminate.
  - now split.
  - injection H as -> H. destruct (IH b c d) as [-> ->]; [lia|exact H|].
    now split.
Qed.

(** X22. For texts of at least 50 characters the fingerprint is exact:
    two such records have the same [uniqueId] exactly when they have the
    same first 50 characters and the same printed timestamp. *)
Theorem long_text_fingerprint_exact :
  forall a b : ScrapedTweet,
    50 <= String.length (text a) -> 50 <= String.length (text b) ->
    (uniqueId a = uniqueId b
     <-> substring 0 50 (text a) = substring 0 50 (text b)
         /\ JS.template (timestamp a) = JS.template (timestamp b)).
Proof.
  intros a b Ha Hb. unfold uniqueId. split.
  - intros H. apply append_same_length in H.
    + destruct H as [Hp Ht]. split; [exact Hp|]. now injection Ht.
    + now rewrite !substring0_length.
  - intros [-> ->]. reflexivity.
Qed.

Lemma long_text_fingerprint_exact_witness :
  uniqueId (plainTweet longTextA "ann" "2024-01-15T12:00:00.000Z")
  = uniqueId (plainTweet longTextB "bob" "2024-01-15T12:00:00.000Z").
Proof.
  apply (proj2 (long_text_fingerprint_exact
                  (plainTweet longTextA "ann" "2024-01-15T12:00:00.000Z")
                  (plainTweet longTextB "bob" "2024-01-15T12:00:00.000Z")
                  ltac:(vm_compute; lia) ltac:(vm_compute; lia))).
  split; reflexivity.
Defined.

(* ------------------------------------------------------------------ *)
(** ** Properties of the popup and of the export *)

(** X23. Doubling the quotes loses nothing: reading the pairs of quotes of
    [escapeQuotes t] back as single quotes gives [t]; no quote of the
    escaped text stands alone. *)
Theorem escapeQuotes_round_trip :
  forall t : string,
    Popup.collapseQuotes (Popup.escapeQuotes t) = Some t.
Proof.
  induction t as [|c r IH]; [reflexivity|].
  cbn [Popup.escapeQuotes].
  destruct (Ascii.eqb_spec c Popup.quoteChar) as [->|Hne].
  - cbn [Popup.collapseQuotes]. rewrite Ascii.eqb_refl, IH. reflexivity.
  - cbn [Popup.collapseQuotes].
    destruct (Ascii.eqb_spec c Popup.quoteChar); [contradiction|].
    rewrite IH. reflexivity.
Qed.

Lemma timestamp_unknown e t :
  extractTweetData e = Some t -> readableTimestamp e = None ->
  timestamp t = Some "".
Proof.
  intros He Hr.
  destruct (extracted_record_shape e t He) as (_ & _ & _ & Hts & _).
  rewrite Hts. f_equal. unfold readableTimestamp in Hr.
  destruct (q_time e) as [[d|]|]; try reflexivity.
  simpl. destruct (JS.truthy d); [discriminate|reflexivity].
Qed.

(** X24. A tweet without a readable time or without an author name is
    exported as Unknown: for a record extracted from such a node, the
    Timestamp column, respectively the Author column, of its CSV row is
    the quoted word Unknown. *)
Theorem missing_fields_export_unknown :
  forall (e : Element) (t : ScrapedTweet),
    extractTweetData e = Some t ->
    (readableTimestamp e = None ->
       nth_error (Popup.csvRow t) 2 = Some (Popup.quoted "Unknown"))
    /\ (q_userName e = None ->
          nth_error (Popup.csvRow t) 1 = Some (Popup.quoted "Unknown")).
Proof.
  intros e t He. split.
  - intros Hr. unfold Popup.csvRow. cbn [nth_error].
    rewrite (timestamp_unknown e t He Hr). reflexivity.
  - intros Hu. unfold Popup.csvRow. cbn [nth_error].
    destruct (extracted_record_shape e t He) as (_ & _ & _ & _ & Ha & _).
    rewrite Ha, Hu. reflexivity.
Qed.

Lemma missing_fields_export_unknown_witness :
  nth_error
    (Popup.csvRow
       {| text := "a long enough language text"; timestamp := Some "";
          author := Some ""; isThread := None; threadTweets := None;
          threadPosition := None; quotedTweetUrl := None;
          mediaUrls := None |}) 2
  = Some (Popup.quoted "Unknown").
Proof.
  apply (proj1 (missing_fields_export_unknown
                  {| q_tweetText := None;
                     q_lang := ["a long enough language text"];
                     q_divs := []; q_time := None; q_userName := None;
                     q_quotedLink := None; q_photoLinks := [];
                     q_videoLinks := []; q_media := [];
                     q_threadConnector := false;
                     q_previousThreadConnector := false |}
                  {| text := "a long enough language text";
                     timestamp := Some ""; author := Some "";
                     isThread := None; threadTweets := None;
                     threadPosition := None; quotedTweetUrl := None;
                     mediaUrls := None |} eq_refl)).
  reflexivity.
Defined.

(** X25. The members of a thread export the same Full Thread column: for
    a group of two or more records closed by thread reconstruction, the
    CSV row of every emitted member has Yes in the Is Thread column and,
    in the Full Thread column, the escaped texts of the members in order,
    joined by a bar; a record emitted alone has No and an empty Full
    Thread column. *)
Theorem thread_columns_shared :
  forall (tweetElements : list Element) (g : list ScrapedTweet)
         (x : ScrapedTweet),
    In g (threadGroups tweetElements) -> In x (emitGroup g) ->
    (2 <= List.length g ->
       nth_error (Popup.csvRow x) 3 = Some (Popup.quoted "Yes")
       /\ nth_error (Popup.csvRow x) 5
          = Some (Popup.quoted
                    (String.concat " | "
                       (map Popup.escapeQuotes (map text g)))))
    /\ (List.length g = 1 ->
          nth_error (Popup.csvRow x) 3 = Some (Popup.quoted "No")
          /\ nth_error (Popup.csvRow x) 5 = Some (Popup.quoted "")).
Proof.
  intros els g x Hg Hx. split.
  - intros Hlen. rewrite emitGroup_thread in Hx by exact Hlen.
    pose proof (finalize_marks (map text g) g 0) as H.
    rewrite Forall_forall in H. destruct (H x Hx) as [H1 H2].
    unfold Popup.csvRow. cbn [nth_error]. rewrite H1, H2.
    split; reflexivity.
  - intros Hlen. destruct g as [|a [|b r]]; try discriminate.
    rewrite emitGroup_single in Hx. destruct Hx as [<-|[]].
    assert (noThreadFields a) as (H1 & H2 & _).
    { pose proof (extracted_noThreadFields els) as H.
      rewrite Forall_forall in H. apply H.
      eapply group_members_extracted; [exact Hg|now left]. }
    unfold Popup.csvRow. cbn [nth_error]. rewrite H1, H2.
    split; reflexivity.
Qed.

Lemma thread_columns_shared_witness :
  nth_error
    (Popup.csvRow
       (markThread ["one of three"; "two of three"; "three of three"] 1
          (plainTweet "two of three" "ann" "2024-01-15T12:00:00.000Z"))) 5
  = Some (Popup.quoted "one of three | two of three | three of three").
Proof.
  refine (proj2 (proj1 (thread_columns_shared threadPage
            [ plainTweet "one of three" "ann" "2024-01-15T12:00:00.000Z";
              plainTweet "two of three" "ann" "2024-01-15T12:00:00.000Z";
              plainTweet "three of three" "ann" "2024-01-15T12:00:00.000Z" ]
            (markThread ["one of three"; "two of three"; "three of three"] 1
               (plainTweet "two of three" "ann" "2024-01-15T12:00:00.000Z"))
            _ _) _)).
  - vm_compute. left. reflexivity.
  - vm_compute. right. left. reflexivity.
  - simpl. lia.
Defined.

(** X26. Start from the popup reaches the scraper: when the popup is on
    the site, its start command carries the configuration of the selected
    mode; handled by a scraper that is not active, it leaves both sides
    active with no tweets and a count of 0, and the scraper launches the
    seek loop exactly in date mode. Off the site the popup sends nothing
    and only changes its status line. *)
Theorem popup_start_reaches_scraper :
  forall (parseInt : string -> option Z) (p : Popup.State)
         (s : TwitterScraper),
    (Popup.isOnTwitter p = false ->
       snd (Popup.startScraping parseInt p) = None
       /\ Popup.isActive (fst (Popup.startScraping parseInt p))
          = Popup.isActive p
       /\ Popup.scrapedTweets (fst (Popup.startScraping parseInt p))
          = Popup.scrapedTweets p)
    /\ (Popup.isOnTwitter p = true -> isActive s = false ->
          let cfg := popupConfig (Popup.scrapeMode p)
                       (parseInt (Popup.maxTweets p))
                       (Popup.startDate p) (Popup.endDate p) in
          let p' := fst (Popup.startScraping parseInt p) in
          let r := onMessage (START_SCRAPING cfg) s in
          snd (Popup.startScraping parseInt p) = Some (START_SCRAPING cfg)
          /\ Popup.isActive p' = true /\ isActive (this r) = true
          /\ config (this r) = cfg
          /\ allTweets (this r) = Popup.scrapedTweets p'
          /\ List.length (allTweets (this r)) = Popup.tweetCount p'
          /\ (result r = LaunchScrollToDateRange
              <-> Popup.scrapeMode p = mode_date)).
Proof.
  intros parseInt p s. unfold Popup.startScraping. split.
  - intros ->. simpl. repeat split.
  - intros -> Hoff. cbv zeta. cbn [negb fst snd].
    unfold onMessage. rewrite !this_bind, !result_bind.
    cbn [this result emit ret fst snd].
    rewrite startScraping_this, Hoff.
    unfold startScraping.
    rewrite result_bind. cbn [this result get fst snd]. rewrite Hoff.
    rewrite !result_bind. cbn [this result put get emit fst snd].
    cbn [Popup.isActive Popup.scrapedTweets Popup.tweetCount
         isActive config allTweets List.length].
    repeat split; try reflexivity; destruct (Popup.scrapeMode p);
      cbn [popupConfig dateRange result ret fst]; intros H;
      try discriminate H; reflexivity.
Qed.

Lemma popup_start_reaches_scraper_witness :
  snd (Popup.startScraping (fun _ => Some 100%Z) Popup.initial) = None
  /\ snd (Popup.startScraping (fun _ => Some 100%Z) onSitePopup)
     = Some (START_SCRAPING (popupConfig mode_all (Some 100%Z) "" "")).
Proof.
  split.
  - apply (proj1 (popup_start_reaches_scraper (fun _ => Some 100%Z)
                    Popup.initial newScraper)).
    reflexivity.
  - apply (proj2 (popup_start_reaches_scraper (fun _ => Some 100%Z)
                    onSitePopup newScraper)); reflexivity.
Defined.

(** X27. STOP always completes: handling STOP_SCRAPING leaves the scraper
    inactive without a timer, with its tweets and configuration as they
    were; it cancels the timer exactly when a handle was stored, and it
    sends the completion status and one SCRAPING_COMPLETE with all the
    tweets, also when the scraper was already stopped: a second STOP
    leaves the same object and sends the same messages again. *)
Theorem stop_command :
  forall s : TwitterScraper,
    let r := onMessage STOP_SCRAPING s in
    this r = {| allTweets := allTweets s; scrollInterval := None;
                isActive := false; config := config s |}
    /\ effects r
       = match scrollInterval s with
         | Some h => [ClearInterval h]
         | None => []
         end
         ++ [SendMessage (STATUS_UPDATE "Scraping completed"
                            (List.length (allTweets s)));
             SendMessage (SCRAPING_COMPLETE (allTweets s)
                            (List.length (allTweets s)));
             SendResponse (RespStatus "stopped")]
    /\ this (onMessage STOP_SCRAPING (this r)) = this r
    /\ sentMessages (effects (onMessage STOP_SCRAPING (this r)))
       = sentMessages (effects r).
Proof.
  intros s.
  assert (forall u,
             this (onMessage STOP_SCRAPING u)
             = {| allTweets := allTweets u; scrollInterval := None;
                  isActive := false; config := config u |}) as Hthis.
  { intros u. unfold onMessage. rewrite !this_bind.
    cbn [this result emit ret fst snd]. apply stopScraping_this. }
  assert (forall u,
             effects (onMessage STOP_SCRAPING u)
             = effects (stopScraping u)
               ++ [SendResponse (RespStatus "stopped")]) as Heff.
  { intros u. unfold onMessage. rewrite !effects_bind.
    cbn [this result effects emit ret fst snd]. now rewrite app_nil_r. }
  cbv zeta. rewrite !Hthis, !Heff, !stopScraping_effects.
  cbn [allTweets scrollInterval isActive config].
  repeat split.
  - now rewrite <- app_assoc.
  - rewrite !sentMessages_app. now destruct (scrollInterval s).
Qed.
